(** * SEP-10 web authentication helpers of js-aiblocks-sdk ([Utils])

    A shallow embedding of the [Utils] namespace of
    [src/src/offer_call_builder.ts]: [buildChallengeTx], [readChallengeTx],
    [verifyChallengeTxThreshold], [verifyChallengeTxSigners],
    [verifyTxSignedBy], [gatherTxSigners] and [validateTimebounds].

    The transaction codec, the key pairs and the signature primitives belong
    to the external package [aiblocks-base-sdk]; they enter the development as
    the interface [BaseSdk].  A small executable instance of that interface
    ([Toy]) is used to run the functions on concrete inputs.

    A JavaScript string is kept as the bytes of its UTF-8 encoding, which is
    how the base package writes it into an envelope. *)

From Stdlib Require Import String Ascii List ZArith Bool Lia.
From Stdlib Require Import DecimalString.
Import ListNotations.

Local Open Scope string_scope.
Local Open Scope Z_scope.
Local Open Scope list_scope.

(* ================================================================== *)
(** * JavaScript values used by the module *)

(** The string concatenation of JavaScript, written [s +++ t]. *)
Notation "s +++ t" := (String.append s t) (at level 60, right associativity).

(** A [Buffer] is a byte string. *)
Definition Buffer := string.

(** [s.startsWith(p)] *)
Definition startsWith (s p : string) : bool := String.prefix p s.

(** [s.charAt(0)]: the one-character string at index 0, or the empty string. *)
Definition charAt0 (s : string) : string :=
  match s with
  | EmptyString => EmptyString
  | String c _ => String c EmptyString
  end.

(** The double-quote character, as a one-character string. *)
Definition dquote : string := String (ascii_of_nat 34) EmptyString.

(** The template-literal rendering [`${n}`] of an integral number. *)
Definition string_of_Z (n : Z) : string := NilZero.string_of_int (Z.to_int n).

(** A byte of the ASCII range: its highest bit is clear. *)
Definition is_ascii (c : ascii) : bool :=
  match c with
  | Ascii _ _ _ _ _ _ _ b7 => negb b7
  end.

(** A text all of whose bytes are of the ASCII range; every other text has a
    character that UTF-8 writes with bytes above 127. *)
Fixpoint ascii_only (s : string) : bool :=
  match s with
  | EmptyString => true
  | String c s' => is_ascii c && ascii_only s'
  end.

(** Errors thrown by the module: a plain [Error] or an
    [InvalidSep10ChallengeError], each with its message. *)
Inductive Error : Type :=
| JsError (message : string)
| InvalidSep10ChallengeError (message : string).

(** A computation that returns a value or throws. *)
Inductive result (A : Type) : Type :=
| OK (a : A)
| Err (e : Error).
Arguments OK {A} a.
Arguments Err {A} e.

Definition bind {A B : Type} (m : result A) (k : A -> result B) : result B :=
  match m with
  | OK a => k a
  | Err e => Err e
  end.

Notation "'let*' x ':=' m 'in' k" := (bind m (fun x => k))
  (at level 10, x name, m at level 100, k at level 200).

(* ================================================================== *)
(** * Transactions, as the module reads them *)

(** An operation of a parsed transaction.  [op_name] and [op_value] are only
    read on operations whose [op_type] is ["manageData"]. *)
Record Operation : Type := {
  op_type : string;
  op_source : option string;
  op_name : string;
  op_value : Buffer
}.

(** [timeBounds]: the module reads both fields through
    [Number.parseInt(_, 10)]; they are decimal renderings of unsigned
    64-bit integers and are kept here as the integers they denote (the
    comparisons with a clock reading and with [TimeoutInfinite] come out the
    same on the parsed numbers). *)
Record TimeBounds : Type := {
  minTime : Z;
  maxTime : Z
}.

Record DecoratedSignature : Type := {
  hint : Buffer;
  signature : Buffer
}.

(** A [Transaction].  [tx_sequence] is the integer that
    [Number.parseInt(transaction.sequence, 10)] yields. *)
Record Transaction : Type := {
  tx_source : string;
  tx_sequence : Z;
  tx_fee : Z;
  tx_timeBounds : option TimeBounds;
  tx_operations : list Operation;
  tx_signatures : list DecoratedSignature;
  tx_networkPassphrase : string
}.

Record FeeBumpTransaction : Type := {
  fb_feeSource : string;
  fb_innerTransaction : Transaction;
  fb_signatures : list DecoratedSignature;
  fb_networkPassphrase : string
}.

(** What [TransactionBuilder.fromXDR] returns, and what [gatherTxSigners] and
    [verifyTxSignedBy] accept: [FeeBumpTransaction | Transaction]. *)
Inductive AnyTransaction : Type :=
| IsTransaction (tx : Transaction)
| IsFeeBumpTransaction (fb : FeeBumpTransaction).

Definition signatures (t : AnyTransaction) : list DecoratedSignature :=
  match t with
  | IsTransaction tx => tx_signatures tx
  | IsFeeBumpTransaction fb => fb_signatures fb
  end.

Definition set_networkPassphrase (p : string) (tx : Transaction) : Transaction :=
  {| tx_source := tx_source tx;
     tx_sequence := tx_sequence tx;
     tx_fee := tx_fee tx;
     tx_timeBounds := tx_timeBounds tx;
     tx_operations := tx_operations tx;
     tx_signatures := tx_signatures tx;
     tx_networkPassphrase := p |}.

Definition push_signature (d : DecoratedSignature) (tx : Transaction) : Transaction :=
  {| tx_source := tx_source tx;
     tx_sequence := tx_sequence tx;
     tx_fee := tx_fee tx;
     tx_timeBounds := tx_timeBounds tx;
     tx_operations := tx_operations tx;
     tx_signatures := tx_signatures tx ++ [d];
     tx_networkPassphrase := tx_networkPassphrase tx |}.

(** The operation with its key name replaced by [f] of it. *)
Definition set_name (f : string -> string) (op : Operation) : Operation :=
  {| op_type := op_type op;
     op_source := op_source op;
     op_name := f (op_name op);
     op_value := op_value op |}.

(** The transaction with the key name of every operation replaced by [f] of
    it. *)
Definition decode_names (f : string -> string) (tx : Transaction)
  : Transaction :=
  {| tx_source := tx_source tx;
     tx_sequence := tx_sequence tx;
     tx_fee := tx_fee tx;
     tx_timeBounds := tx_timeBounds tx;
     tx_operations := map (set_name f) (tx_operations tx);
     tx_signatures := tx_signatures tx;
     tx_networkPassphrase := tx_networkPassphrase tx |}.

(* ================================================================== *)
(** * The interface of [aiblocks-base-sdk] *)

(** The operations the module calls on the base package, with the facts
    about them that the proofs use. *)
Class BaseSdk : Type := {
  (** [Keypair] objects. *)
  Keypair : Type;
  (** [Keypair.fromPublicKey(s)]: the key pair, or the message of the error
      it throws. *)
  fromPublicKey : string -> string + Keypair;
  (** [keypair.publicKey()] *)
  publicKey : Keypair -> string;
  (** [keypair.signatureHint()] *)
  signatureHint : Keypair -> Buffer;
  (** [keypair.verify(data, signature)] *)
  verify : Keypair -> Buffer -> Buffer -> bool;
  (** [keypair.signDecorated(data)] *)
  signDecorated : Keypair -> Buffer -> DecoratedSignature;
  (** [transaction.hash()] *)
  hash : AnyTransaction -> Buffer;
  (** [transaction.toEnvelope().toXDR("base64").toString()]; the checks the
      package makes while a transaction is assembled and serialized are part
      of it. *)
  toXDR : Transaction -> result string;
  (** [TransactionBuilder.fromXDR(envelope, networkPassphrase)] *)
  fromXDR : string -> string -> result AnyTransaction;
  (** [dataName.toString("ascii")]: how [fromXDR] decodes the bytes of the
      key name of a manage-data operation. *)
  decodeName : string -> string;
  (** The constants [TimeoutInfinite] and [BASE_FEE]. *)
  TimeoutInfinite : Z;
  BASE_FEE : Z;

  (** A public key that parses is printed back as the string it came from. *)
  fromPublicKey_publicKey :
    forall s kp, fromPublicKey s = inr kp -> publicKey kp = s;
  (** Public keys are G-addresses. *)
  publicKey_G :
    forall kp, charAt0 (publicKey kp) = "G";
  (** A key name of the ASCII range is decoded as it was written. *)
  decodeName_ascii :
    forall name, ascii_only name = true -> decodeName name = name;
  (** Parsing a serialized transaction gives the transaction back, on the
      network it is parsed for and with the key names of its operations
      decoded. *)
  fromXDR_toXDR :
    forall tx s p,
      toXDR tx = OK s ->
      fromXDR s p
      = OK (IsTransaction
              (set_networkPassphrase p (decode_names decodeName tx)))
}.

(** [a.equals(b)] on buffers. *)
Definition Buffer_equals (a b : Buffer) : bool := String.eqb a b.

(* ================================================================== *)
(** * The [Utils] namespace *)

(** The [homeDomains] argument: typed [string | string[]], but the function
    also answers callers that pass something else, of which it looks at the
    truthiness and at [typeof]. *)
Inductive HomeDomains : Type :=
| hd_string (s : string)
| hd_array (l : list string)
| hd_other (js_typeof : string) (truthy : bool).

(** [!homeDomains] *)
Definition falsy_homeDomains (h : HomeDomains) : bool :=
  match h with
  | hd_string s => String.eqb s EmptyString
  | hd_array _ => false
  | hd_other _ truthy => negb truthy
  end.

(** A value that is [undefined] or a string, kept when it is truthy. *)
Definition truthy_string (v : option string) : option string :=
  match v with
  | Some s => if String.eqb s EmptyString then None else Some s
  | None => None
  end.

(** What [readChallengeTx] returns. *)
Record ReadChallenge : Type := {
  tx : Transaction;
  clientAccountID : string;
  matchedHomeDomain : string
}.

(** A [Set<string>], in insertion order: what [Array.from] lists. *)
Definition Set_add (x : string) (s : list string) : list string :=
  if existsb (String.eqb x) s then s else s ++ [x].

(** [a.indexOf(x) === -1] *)
Definition not_in_array (x : string) (a : list string) : bool :=
  negb (existsb (String.eqb x) a).

(** [a.splice(a.indexOf(x), 1)] for an [x] that occurs in [a]. *)
Fixpoint splice_indexOf (x : string) (a : list string) : list string :=
  match a with
  | [] => []
  | y :: a' => if String.eqb x y then a' else y :: splice_indexOf x a'
  end.

(** Modelled from the spec: [Operation.manageData] of the base package, which
    the spec describes by the operation it gives: a manage-data operation
    with the given source, key name and value. *)
Definition Operation_manageData (name : string) (value : Buffer) (source : string)
  : Operation :=
  {| op_type := "manageData";
     op_source := Some source;
     op_name := name;
     op_value := value |}.

(** Modelled from the spec: [new TransactionBuilder(account, options)
    .addOperation(...).build()] of the base package, which the spec describes
    by the transaction it gives: its source is the account, its sequence
    number is the account's plus one (the account is created with -1, the
    transaction reads 0), its time bounds and operations are the given ones,
    and it has no signature yet. *)
Definition TransactionBuilder_build
    (accountId : string) (sequence : Z) (fee : Z) (networkPassphrase : string)
    (timebounds : TimeBounds) (operations : list Operation) : Transaction :=
  {| tx_source := accountId;
     tx_sequence := sequence + 1;
     tx_fee := fee;
     tx_timeBounds := Some timebounds;
     tx_operations := operations;
     tx_signatures := [];
     tx_networkPassphrase := networkPassphrase |}.

(** An entry of [signerSummary]: [ServerApi.AccountRecordSigners], of which
    the function reads [key] and [weight]. *)
Record AccountRecordSigners : Type := {
  key : string;
  weight : Z
}.

Section Utils.

Context {sdk : BaseSdk}.

(** [transaction.sign(keypair)] *)
Definition sign (keypair : Keypair) (transaction : Transaction) : Transaction :=
  push_signature (signDecorated keypair (hash (IsTransaction transaction)))
                 transaction.

(** [buildChallengeTx].  [now] is [Math.floor(Date.now() / 1000)], [value]
    is [randomBytes(48).toString("base64")], and [timeout] is a whole number
    of seconds. *)
Definition buildChallengeTx
    (serverKeypair : Keypair) (clientAccountID : string) (homeDomain : string)
    (timeout : Z) (networkPassphrase : string)
    (now : Z) (value : Buffer) : result string :=
  if startsWith clientAccountID "M" then
    Err (JsError
      "Invalid clientAccountID: multiplexed accounts are not supported.")
  else
    let transaction :=
      TransactionBuilder_build (publicKey serverKeypair) (-1) BASE_FEE
        networkPassphrase
        {| minTime := now; maxTime := now + timeout |}
        [Operation_manageData (homeDomain +++ " auth") value clientAccountID] in
    let transaction := sign serverKeypair transaction in
    toXDR transaction.

(** [validateTimebounds], at the clock reading [now]. *)
Definition validateTimebounds (transaction : Transaction) (now : Z) : bool :=
  match tx_timeBounds transaction with
  | None => false
  | Some tb => (minTime tb <=? now) && (now <=? maxTime tb)
  end.

(** The loop of [readChallengeTx] over [subsequentOperations]. *)
Fixpoint check_subsequentOperations
    (serverAccountID : string) (ops : list Operation) : result unit :=
  match ops with
  | [] => OK tt
  | op :: ops' =>
      if negb (String.eqb (op_type op) "manageData") then
        Err (InvalidSep10ChallengeError
          "The transaction has operations that are not of type 'manageData'")
      else if negb (match op_source op with
                    | Some s => String.eqb s serverAccountID
                    | None => false
                    end) then
        Err (InvalidSep10ChallengeError
          "The transaction has operations that are unrecognized")
      else check_subsequentOperations serverAccountID ops'
  end.

(** [homeDomains.find((domain) => `${domain} auth` === name)] *)
Definition find_homeDomain (name : string) (homeDomains : list string)
  : option string :=
  List.find (fun domain => String.eqb (domain +++ " auth") name) homeDomains.

(** [readChallengeTx], at the clock reading [now]. *)
Definition readChallengeTx
    (challengeTx : string) (serverAccountID : string)
    (networkPassphrase : string) (homeDomains : HomeDomains)
    (now : Z) : result ReadChallenge :=
  if startsWith serverAccountID "M" then
    Err (JsError
      "Invalid serverAccountID: multiplexed accounts are not supported.")
  else
  let* transaction := fromXDR challengeTx networkPassphrase in
  match transaction with
  | IsFeeBumpTransaction _ =>
      Err (InvalidSep10ChallengeError
        "Invalid challenge: expected a Transaction but received a FeeBumpTransaction")
  | IsTransaction transaction =>
  if negb (tx_sequence transaction =? 0) then
    Err (InvalidSep10ChallengeError
      "The transaction sequence number should be zero")
  else if negb (String.eqb (tx_source transaction) serverAccountID) then
    Err (InvalidSep10ChallengeError
      "The transaction source account is not equal to the server's account")
  else
  match tx_operations transaction with
  | [] =>
      Err (InvalidSep10ChallengeError
        "The transaction should contain at least one operation")
  | operation :: subsequentOperations =>
  match truthy_string (op_source operation) with
  | None =>
      Err (InvalidSep10ChallengeError
        "The transaction's operation should contain a source account")
  | Some clientAccountID =>
  if negb (String.eqb (op_type operation) "manageData") then
    Err (InvalidSep10ChallengeError
      "The transaction's operation type should be 'manageData'")
  else if match tx_timeBounds transaction with
          | Some tb => maxTime tb =? TimeoutInfinite
          | None => false
          end then
    Err (InvalidSep10ChallengeError
      "The transaction requires non-infinite timebounds")
  else if negb (validateTimebounds transaction now) then
    Err (InvalidSep10ChallengeError "The transaction has expired")
  else if falsy_homeDomains homeDomains then
    Err (InvalidSep10ChallengeError
      "Invalid homeDomains: a home domain must be provided for verification")
  else
  let* matchedHomeDomain :=
    match homeDomains with
    | hd_string homeDomain =>
        if String.eqb (homeDomain +++ " auth") (op_name operation)
        then OK (Some homeDomain) else OK None
    | hd_array domains => OK (find_homeDomain (op_name operation) domains)
    | hd_other js_typeof _ =>
        Err (InvalidSep10ChallengeError
          ("Invalid homeDomains: homeDomains type is " +++ js_typeof +++
           " but should be a string or an array"))
    end in
  match truthy_string matchedHomeDomain with
  | None =>
      Err (InvalidSep10ChallengeError
        "Invalid homeDomains: the transaction's operation key name does not match the expected home domain")
  | Some matchedHomeDomain =>
  let* _ := check_subsequentOperations serverAccountID subsequentOperations in
  OK {| tx := transaction;
        clientAccountID := clientAccountID;
        matchedHomeDomain := matchedHomeDomain |}
  end end end end.

(** The inner loop of [gatherTxSigners]: the first signature of the pool whose
    hint is the key's and which the key verifies is spliced out; [None] when
    the loop ends without a match. *)
Fixpoint match_signature
    (keypair : Keypair) (hashedSignatureBase : Buffer)
    (txSignatures : list DecoratedSignature)
  : option (list DecoratedSignature) :=
  match txSignatures with
  | [] => None
  | decSig :: rest =>
      if negb (Buffer_equals (hint decSig) (signatureHint keypair)) then
        option_map (cons decSig)
          (match_signature keypair hashedSignatureBase rest)
      else if verify keypair hashedSignatureBase (signature decSig) then
        Some rest
      else
        option_map (cons decSig)
          (match_signature keypair hashedSignatureBase rest)
  end.

(** The outer loop of [gatherTxSigners], from a state ([txSignatures],
    [signersFound]) to the state it ends in. *)
Fixpoint gather_loop
    (hashedSignatureBase : Buffer) (signers : list string)
    (txSignatures : list DecoratedSignature) (signersFound : list string)
  : result (list string * list DecoratedSignature) :=
  match signers with
  | [] => OK (signersFound, txSignatures)
  | signer :: signers' =>
      match txSignatures with
      | [] => OK (signersFound, txSignatures)
      | _ :: _ =>
          match fromPublicKey signer with
          | inl message =>
              Err (InvalidSep10ChallengeError
                ("Signer is not a valid address: " +++ message))
          | inr keypair =>
              match match_signature keypair hashedSignatureBase txSignatures with
              | Some txSignatures' =>
                  gather_loop hashedSignatureBase signers' txSignatures'
                    (Set_add signer signersFound)
              | None =>
                  gather_loop hashedSignatureBase signers' txSignatures
                    signersFound
              end
          end
      end
  end.

(** [gatherTxSigners] *)
Definition gatherTxSigners
    (transaction : AnyTransaction) (signers : list string)
  : result (list string) :=
  let* final :=
    gather_loop (hash transaction) signers (signatures transaction) [] in
  OK (fst final).

(** [verifyTxSignedBy] *)
Definition verifyTxSignedBy
    (transaction : AnyTransaction) (accountID : string) : result bool :=
  let* found := gatherTxSigners transaction [accountID] in
  OK (negb (Nat.eqb (List.length found) 0)).

(** The loop of [verifyChallengeTxSigners] that fills [clientSigners]. *)
Fixpoint collect_clientSigners
    (serverPublicKey : string) (signers : list string)
    (clientSigners : list string) : list string :=
  match signers with
  | [] => clientSigners
  | signer :: signers' =>
      if String.eqb signer serverPublicKey then
        collect_clientSigners serverPublicKey signers' clientSigners
      else if negb (String.eqb (charAt0 signer) "G") then
        collect_clientSigners serverPublicKey signers' clientSigners
      else
        collect_clientSigners serverPublicKey signers'
          (Set_add signer clientSigners)
  end.

(** [verifyChallengeTxSigners], at the clock reading [now]. *)
Definition verifyChallengeTxSigners
    (challengeTx : string) (serverAccountID : string)
    (networkPassphrase : string) (signers : list string)
    (homeDomains : HomeDomains) (now : Z) : result (list string) :=
  let* read :=
    readChallengeTx challengeTx serverAccountID networkPassphrase
      homeDomains now in
  match fromPublicKey serverAccountID with
  | inl message =>
      Err (JsError
        ("Couldn't infer keypair from the provided 'serverAccountID': "
         +++ message))
  | inr serverKP =>
  let clientSigners := collect_clientSigners (publicKey serverKP) signers [] in
  if Nat.eqb (List.length clientSigners) 0 then
    Err (InvalidSep10ChallengeError
      "No verifiable client signers provided, at least one G... address must be provided")
  else
  let allSigners := publicKey serverKP :: clientSigners in
  let* signersFound := gatherTxSigners (IsTransaction (tx read)) allSigners in
  if not_in_array (publicKey serverKP) signersFound then
    Err (InvalidSep10ChallengeError
      ("Transaction not signed by server: '" +++ publicKey serverKP +++ "'"))
  else if Nat.eqb (List.length signersFound) 1 then
    Err (InvalidSep10ChallengeError
      "None of the given signers match the transaction signatures")
  else if negb (Nat.eqb (List.length signersFound)
                        (List.length (tx_signatures (tx read)))) then
    Err (InvalidSep10ChallengeError "Transaction has unrecognized signatures")
  else
    OK (splice_indexOf (publicKey serverKP) signersFound)
  end.

(** [signerSummary.find((s) => s.key === signer)?.weight || 0] *)
Definition sigWeight
    (signerSummary : list AccountRecordSigners) (signer : string) : Z :=
  match List.find (fun s => String.eqb (key s) signer) signerSummary with
  | Some s => weight s
  | None => 0
  end.

(** The loop of [verifyChallengeTxThreshold] that adds the weights up. *)
Fixpoint add_weights
    (signerSummary : list AccountRecordSigners) (signersFound : list string)
    (weight : Z) : Z :=
  match signersFound with
  | [] => weight
  | signer :: rest =>
      add_weights signerSummary rest (weight + sigWeight signerSummary signer)
  end.

(** [verifyChallengeTxThreshold], at the clock reading [now]. *)
Definition verifyChallengeTxThreshold
    (challengeTx : string) (serverAccountID : string)
    (networkPassphrase : string) (threshold : Z)
    (signerSummary : list AccountRecordSigners)
    (homeDomains : HomeDomains) (now : Z) : result (list string) :=
  let signers := map key signerSummary in
  let* signersFound :=
    verifyChallengeTxSigners challengeTx serverAccountID networkPassphrase
      signers homeDomains now in
  let weight := add_weights signerSummary signersFound 0 in
  if weight <? threshold then
    Err (InvalidSep10ChallengeError
      ("signers with weight " +++ string_of_Z weight +++
       " do not meet threshold " +++ string_of_Z threshold +++ dquote))
  else
    OK signersFound.

End Utils.

(* ================================================================== *)
(** * Notions used in the statements *)

(** The candidates that [verifyChallengeTxSigners] keeps: those that are not
    the server's address and whose first character is G. *)
Definition verifiable (serverAccountID : string) (signer : string) : bool :=
  negb (String.eqb signer serverAccountID)
  && String.eqb (charAt0 signer) "G".

(** The sum of the weights that [signerSummary] gives to a list of
    signers. *)
Definition total_weight
    (signerSummary : list AccountRecordSigners) (signersFound : list string)
  : Z :=
  fold_right Z.add 0 (map (sigWeight signerSummary) signersFound).

(** A list without the first of its elements that satisfies [f]. *)
Fixpoint remove_first {A : Type} (f : A -> bool) (l : list A) : list A :=
  match l with
  | [] => []
  | a :: l' => if f a then l' else a :: remove_first f l'
  end.

Section Notions.

Context {sdk : BaseSdk}.

(** A key pair matches a signature when the hint is the key's and the key
    verifies the signature: the test of the inner loop. *)
Definition matches (keypair : Keypair) (hashedSignatureBase : Buffer)
    (decSig : DecoratedSignature) : bool :=
  Buffer_equals (hint decSig) (signatureHint keypair)
  && verify keypair hashedSignatureBase (signature decSig).

(** A candidate that [Keypair.fromPublicKey] accepts. *)
Definition parses (signer : string) : Prop :=
  exists keypair, fromPublicKey signer = inr keypair.

(** The signatures that are still unmatched once the candidates [signers]
    have been gone through: every candidate that is a public key takes out
    the first signature that its key matches, if there is one. *)
Fixpoint unmatched_after
    (hashedSignatureBase : Buffer) (signers : list string)
    (txSignatures : list DecoratedSignature) : list DecoratedSignature :=
  match signers with
  | [] => txSignatures
  | signer :: signers' =>
      match fromPublicKey signer with
      | inr keypair =>
          unmatched_after hashedSignatureBase signers'
            (remove_first (matches keypair hashedSignatureBase) txSignatures)
      | inl _ => unmatched_after hashedSignatureBase signers' txSignatures
      end
  end.

(** The list that [verifyChallengeTxSigners] hands to [gatherTxSigners]. *)
Definition allSigners (serverKP : Keypair) (signers : list string)
  : list string :=
  publicKey serverKP :: collect_clientSigners (publicKey serverKP) signers [].

(** The checks that [readChallengeTx] makes before it looks at the time
    bounds: the server is not multiplexed, the challenge parses to a
    [transaction] (not a fee bump) with sequence number 0 and the server as
    source, whose first [operation] has a source, the [client], and the type
    [manageData]. *)
Record StructureChecked
    (challengeTx serverAccountID networkPassphrase : string)
    (transaction : Transaction) (operation : Operation)
    (subsequentOperations : list Operation) (client : string) : Prop := {
  checked_server : startsWith serverAccountID "M" = false;
  checked_parse :
    fromXDR challengeTx networkPassphrase = OK (IsTransaction transaction);
  checked_sequence : tx_sequence transaction = 0;
  checked_source : tx_source transaction = serverAccountID;
  checked_operations :
    tx_operations transaction = operation :: subsequentOperations;
  checked_client : truthy_string (op_source operation) = Some client;
  checked_type : op_type operation = "manageData"
}.

(** The time bounds are there, finite, and contain [now]. *)
Definition TimeboundsChecked (transaction : Transaction) (now : Z) : Prop :=
  exists tb,
    tx_timeBounds transaction = Some tb
    /\ maxTime tb <> TimeoutInfinite
    /\ minTime tb <= now <= maxTime tb.

(** [homeDomains] is given and [domain] is what it selects for the key
    [name]: the string itself, or the first element of the array that
    matches. *)
Definition HomeDomainMatched
    (homeDomains : HomeDomains) (name : string) (domain : string) : Prop :=
  domain <> EmptyString
  /\ match homeDomains with
     | hd_string homeDomain =>
         homeDomain = domain /\ name = domain +++ " auth"
     | hd_array domains => find_homeDomain name domains = Some domain
     | hd_other _ _ => False
     end.

(** The transaction that [buildChallengeTx] serializes. *)
Definition built_transaction
    (serverKeypair : Keypair) (client homeDomain : string) (timeout : Z)
    (networkPassphrase : string) (now : Z) (value : Buffer) : Transaction :=
  sign serverKeypair
    (TransactionBuilder_build (publicKey serverKeypair) (-1) BASE_FEE
       networkPassphrase
       {| minTime := now; maxTime := now + timeout |}
       [Operation_manageData (homeDomain +++ " auth") value client]).

End Notions.

(* ================================================================== *)
(** * An executable base package *)

(** A small instance of [BaseSdk], to run the module on concrete
    transactions.  Addresses are the 56-character strings that start with
    G; a signature of [data] by an address is the text
    [address:data]; the wire format frames every field so that it can be
    parsed back. *)
Module Toy.

Definition Keypair : Type := string.

Definition publicKey (kp : Keypair) : string := String "G" kp.

Definition fromPublicKey (s : string) : string + Keypair :=
  match s with
  | String c body =>
      if Ascii.eqb c "G" && Nat.eqb (String.length body) 55
      then inr body
      else inl "Invalid AiBlocks public key"
  | EmptyString => inl "Invalid AiBlocks public key"
  end.

Definition signatureHint (kp : Keypair) : Buffer :=
  String.substring 51 4 kp.

Definition signature_of (kp : Keypair) (data : Buffer) : Buffer :=
  publicKey kp +++ ":" +++ data.

Definition verify (kp : Keypair) (data sig : Buffer) : bool :=
  String.eqb sig (signature_of kp data).

Definition signDecorated (kp : Keypair) (data : Buffer) : DecoratedSignature :=
  {| hint := signatureHint kp; signature := signature_of kp data |}.

Definition hash_tx (t : Transaction) : Buffer :=
  tx_networkPassphrase t +++ "/" +++ tx_source t +++ "/" +++
  String.concat "," (map op_name (tx_operations t)).

Definition hash (t : AnyTransaction) : Buffer :=
  match t with
  | IsTransaction t => hash_tx t
  | IsFeeBumpTransaction fb =>
      fb_feeSource fb +++ "/" +++ hash_tx (fb_innerTransaction fb)
  end.

(** ** Wire format *)

(** Writers take the text that follows; readers return what is left. *)
Fixpoint put_string (s : string) (k : string) : string :=
  match s with
  | EmptyString => String ";" k
  | String c s' => String "." (String c (put_string s' k))
  end.

Fixpoint get_string (w : string) : option (string * string) :=
  match w with
  | String t w' =>
      if Ascii.eqb t ";" then Some (EmptyString, w')
      else if Ascii.eqb t "." then
        match w' with
        | String c w'' =>
            match get_string w'' with
            | Some (s, k) => Some (String c s, k)
            | None => None
            end
        | EmptyString => None
        end
      else None
  | EmptyString => None
  end.

Fixpoint put_positive (p : positive) (k : string) : string :=
  match p with
  | xH => String "h" k
  | xO p' => String "o" (put_positive p' k)
  | xI p' => String "i" (put_positive p' k)
  end.

Fixpoint get_positive (w : string) : option (positive * string) :=
  match w with
  | String t w' =>
      if Ascii.eqb t "h" then Some (xH, w')
      else if Ascii.eqb t "o" then
        match get_positive w' with
        | Some (p, k) => Some (xO p, k)
        | None => None
        end
      else if Ascii.eqb t "i" then
        match get_positive w' with
        | Some (p, k) => Some (xI p, k)
        | None => None
        end
      else None
  | EmptyString => None
  end.

Definition put_Z (z : Z) (k : string) : string :=
  match z with
  | Z0 => String "z" k
  | Zpos p => String "p" (put_positive p k)
  | Zneg p => String "n" (put_positive p k)
  end.

Definition get_Z (w : string) : option (Z * string) :=
  match w with
  | String t w' =>
      if Ascii.eqb t "z" then Some (Z0, w')
      else if Ascii.eqb t "p" then
        match get_positive w' with
        | Some (p, k) => Some (Zpos p, k)
        | None => None
        end
      else if Ascii.eqb t "n" then
        match get_positive w' with
        | Some (p, k) => Some (Zneg p, k)
        | None => None
        end
      else None
  | EmptyString => None
  end.

Section Containers.

Variable A : Type.
Variable put : A -> string -> string.
Variable get : string -> option (A * string).
Hypothesis get_put : forall a k, get (put a k) = Some (a, k).

Definition put_option (o : option A) (k : string) : string :=
  match o with
  | None => String "N" k
  | Some a => String "S" (put a k)
  end.

Definition get_option (w : string) : option (option A * string) :=
  match w with
  | String t w' =>
      if Ascii.eqb t "N" then Some (None, w')
      else if Ascii.eqb t "S" then
        match get w' with
        | Some (a, k) => Some (Some a, k)
        | None => None
        end
      else None
  | EmptyString => None
  end.

Lemma get_put_option o k : get_option (put_option o k) = Some (o, k).
Proof.
  destruct o as [a|]; simpl; [rewrite get_put|]; reflexivity.
Qed.

(** A list is written as one mark per element, an end mark, and then the
    elements. *)
Fixpoint put_count (n : nat) (k : string) : string :=
  match n with
  | O => String "!" k
  | S n' => String "+" (put_count n' k)
  end.

Fixpoint get_count (w : string) : option (nat * string) :=
  match w with
  | String t w' =>
      if Ascii.eqb t "!" then Some (O, w')
      else if Ascii.eqb t "+" then
        match get_count w' with
        | Some (n, k) => Some (S n, k)
        | None => None
        end
      else None
  | EmptyString => None
  end.

Fixpoint put_items (l : list A) (k : string) : string :=
  match l with
  | [] => k
  | a :: l' => put a (put_items l' k)
  end.

Fixpoint get_items (n : nat) (w : string) : option (list A * string) :=
  match n with
  | O => Some ([], w)
  | S n' =>
      match get w with
      | Some (a, w') =>
          match get_items n' w' with
          | Some (l, k) => Some (a :: l, k)
          | None => None
          end
      | None => None
      end
  end.

Definition put_list (l : list A) (k : string) : string :=
  put_count (List.length l) (put_items l k).

Definition get_list (w : string) : option (list A * string) :=
  match get_count w with
  | Some (n, w') => get_items n w'
  | None => None
  end.

Lemma get_put_count n k : get_count (put_count n k) = Some (n, k).
Proof.
  induction n as [|n IH]; simpl; [|rewrite IH]; reflexivity.
Qed.

Lemma get_put_items l k : get_items (List.length l) (put_items l k) = Some (l, k).
Proof.
  induction l as [|a l IH]; simpl; [|rewrite get_put, IH]; reflexivity.
Qed.

Lemma get_put_list l k : get_list (put_list l k) = Some (l, k).
Proof.
  unfold get_list, put_list. rewrite get_put_count. apply get_put_items.
Qed.

End Containers.

Lemma get_put_string s k : get_string (put_string s k) = Some (s, k).
Proof.
  induction s as [|c s IH]; simpl; [|rewrite IH]; reflexivity.
Qed.

Lemma get_put_positive p k : get_positive (put_positive p k) = Some (p, k).
Proof.
  induction p as [p IH|p IH|]; simpl; try rewrite IH; reflexivity.
Qed.

Lemma get_put_Z z k : get_Z (put_Z z k) = Some (z, k).
Proof.
  destruct z; simpl; try rewrite get_put_positive; reflexivity.
Qed.

Definition put_Operation (o : Operation) (k : string) : string :=
  put_string (op_type o)
    (put_option string put_string (op_source o)
      (put_string (op_name o) (put_string (op_value o) k))).

Definition get_Operation (w : string) : option (Operation * string) :=
  match get_string w with
  | Some (t, w1) =>
  match get_option string get_string w1 with
  | Some (src, w2) =>
  match get_string w2 with
  | Some (n, w3) =>
  match get_string w3 with
  | Some (v, k) =>
      Some ({| op_type := t; op_source := src; op_name := n; op_value := v |}, k)
  | None => None end
  | None => None end
  | None => None end
  | None => None end.

Lemma get_put_Operation o k : get_Operation (put_Operation o k) = Some (o, k).
Proof.
  destruct o. unfold get_Operation, put_Operation. simpl.
  rewrite get_put_string, (get_put_option _ _ _ get_put_string).
  now rewrite !get_put_string.
Qed.

Definition put_TimeBounds (tb : TimeBounds) (k : string) : string :=
  put_Z (minTime tb) (put_Z (maxTime tb) k).

Definition get_TimeBounds (w : string) : option (TimeBounds * string) :=
  match get_Z w with
  | Some (lo, w1) =>
  match get_Z w1 with
  | Some (hi, k) => Some ({| minTime := lo; maxTime := hi |}, k)
  | None => None end
  | None => None end.

Lemma get_put_TimeBounds tb k :
  get_TimeBounds (put_TimeBounds tb k) = Some (tb, k).
Proof.
  destruct tb. unfold get_TimeBounds, put_TimeBounds. simpl.
  now rewrite !get_put_Z.
Qed.

Definition put_DecoratedSignature (d : DecoratedSignature) (k : string) : string :=
  put_string (hint d) (put_string (signature d) k).

Definition get_DecoratedSignature (w : string)
  : option (DecoratedSignature * string) :=
  match get_string w with
  | Some (h, w1) =>
  match get_string w1 with
  | Some (sg, k) => Some ({| hint := h; signature := sg |}, k)
  | None => None end
  | None => None end.

Lemma get_put_DecoratedSignature d k :
  get_DecoratedSignature (put_DecoratedSignature d k) = Some (d, k).
Proof.
  destruct d. unfold get_DecoratedSignature, put_DecoratedSignature. simpl.
  now rewrite !get_put_string.
Qed.

(** The network passphrase is not part of the envelope. *)
Definition put_Transaction (t : Transaction) (k : string) : string :=
  put_string (tx_source t)
    (put_Z (tx_sequence t)
      (put_Z (tx_fee t)
        (put_option TimeBounds put_TimeBounds (tx_timeBounds t)
          (put_list Operation put_Operation (tx_operations t)
            (put_list DecoratedSignature put_DecoratedSignature
               (tx_signatures t) k))))).

Definition get_Transaction (w : string) : option (Transaction * string) :=
  match get_string w with
  | Some (src, w1) =>
  match get_Z w1 with
  | Some (sq, w2) =>
  match get_Z w2 with
  | Some (fee, w3) =>
  match get_option TimeBounds get_TimeBounds w3 with
  | Some (tb, w4) =>
  match get_list Operation get_Operation w4 with
  | Some (ops, w5) =>
  match get_list DecoratedSignature get_DecoratedSignature w5 with
  | Some (sigs, k) =>
      Some ({| tx_source := src; tx_sequence := sq; tx_fee := fee;
               tx_timeBounds := tb; tx_operations := ops;
               tx_signatures := sigs;
               tx_networkPassphrase := EmptyString |}, k)
  | None => None end
  | None => None end
  | None => None end
  | None => None end
  | None => None end
  | None => None end.

Lemma get_put_Transaction t k :
  get_Transaction (put_Transaction t k)
  = Some (set_networkPassphrase EmptyString t, k).
Proof.
  destruct t. unfold get_Transaction, put_Transaction. simpl.
  rewrite get_put_string, !get_put_Z.
  rewrite (get_put_option _ _ _ get_put_TimeBounds).
  rewrite (get_put_list _ _ _ get_put_Operation).
  now rewrite (get_put_list _ _ _ get_put_DecoratedSignature).
Qed.

(** [buffer.toString("ascii")] of Node.js: the highest bit of every byte is
    cleared. *)
Definition clear_high_bit (c : ascii) : ascii :=
  match c with
  | Ascii b0 b1 b2 b3 b4 b5 b6 _ => Ascii b0 b1 b2 b3 b4 b5 b6 false
  end.

Fixpoint decodeName (name : string) : string :=
  match name with
  | EmptyString => EmptyString
  | String c name' => String (clear_high_bit c) (decodeName name')
  end.

(** An envelope is a transaction (mark T) or a fee bump (mark F) around one. *)
Definition toXDR (t : Transaction) : result string :=
  OK (String "T" (put_Transaction t EmptyString)).

Definition toXDR_feeBump (fb : FeeBumpTransaction) : string :=
  String "F"
    (put_string (fb_feeSource fb)
      (put_list DecoratedSignature put_DecoratedSignature (fb_signatures fb)
        (put_Transaction (fb_innerTransaction fb) EmptyString))).

Definition fromXDR (w : string) (networkPassphrase : string)
  : result AnyTransaction :=
  let bad := Err (JsError "XDR Read Error") in
  match w with
  | String m w' =>
      if Ascii.eqb m "T" then
        match get_Transaction w' with
        | Some (t, EmptyString) =>
            OK (IsTransaction
                  (set_networkPassphrase networkPassphrase
                     (decode_names decodeName t)))
        | _ => bad
        end
      else if Ascii.eqb m "F" then
        match get_string w' with
        | Some (src, w1) =>
        match get_list DecoratedSignature get_DecoratedSignature w1 with
        | Some (sigs, w2) =>
        match get_Transaction w2 with
        | Some (t, EmptyString) =>
            OK (IsFeeBumpTransaction
                  {| fb_feeSource := src;
                     fb_innerTransaction :=
                       set_networkPassphrase networkPassphrase
                         (decode_names decodeName t);
                     fb_signatures := sigs;
                     fb_networkPassphrase := networkPassphrase |})
        | _ => bad end
        | None => bad end
        | None => bad end
      else bad
  | EmptyString => bad
  end.

Lemma parsed_key_prints_back s kp :
  fromPublicKey s = inr kp -> publicKey kp = s.
Proof.
  destruct s as [|c body]; simpl; [discriminate|].
  destruct (Ascii.eqb c "G") eqn:Hc; simpl; [|discriminate].
  destruct (Nat.eqb (String.length body) 55); [|discriminate].
  apply Ascii.eqb_eq in Hc. intros [= <-]. now subst c.
Qed.

Lemma ascii_name_decoded name :
  ascii_only name = true -> decodeName name = name.
Proof.
  induction name as [|c name IH]; simpl; [reflexivity|].
  intros H. apply andb_prop in H as [Hc Hname]. rewrite (IH Hname).
  destruct c as [b0 b1 b2 b3 b4 b5 b6 b7]. simpl in Hc.
  apply negb_true_iff in Hc. now subst b7.
Qed.

Lemma parse_serialized t s p :
  toXDR t = OK s ->
  fromXDR s p
  = OK (IsTransaction (set_networkPassphrase p (decode_names decodeName t))).
Proof.
  intros [= <-]. unfold fromXDR. simpl. now rewrite get_put_Transaction.
Qed.

#[export] Instance sdk : BaseSdk :=
  Build_BaseSdk Keypair fromPublicKey publicKey signatureHint verify
    signDecorated hash toXDR fromXDR decodeName 0 100
    parsed_key_prints_back (fun _ => eq_refl) ascii_name_decoded
    parse_serialized.

End Toy.

(* ================================================================== *)
(** * Sample data *)

(** Addresses, key pairs and transactions on which the functions are run. *)
Module Samples.

Import Toy.

Definition serverAddress : string :=
  "GSERVERAAAAAAAAAAAAAAAAAAAAAAAAAAAAAAAAAAAAAAAAAAAAASERV".
Definition clientAddress : string :=
  "GCLIENTAAAAAAAAAAAAAAAAAAAAAAAAAAAAAAAAAAAAAAAAAAAAACLIE".
Definition signerAddress : string :=
  "GSIGNERBAAAAAAAAAAAAAAAAAAAAAAAAAAAAAAAAAAAAAAAAAAAASIGN".
Definition strangerAddress : string :=
  "GSTRANGERAAAAAAAAAAAAAAAAAAAAAAAAAAAAAAAAAAAAAAAAAAASTRA".

(** A pre-authorized transaction hash, which is no account address. *)
Definition preauthTxHash : string :=
  "TAQCSRX2RIDJNHFIFHWD63X7D7D6TRT5Y2S6E3TEMXTG5W3OECHZ2OG4".

(** A multiplexed address. *)
Definition muxedAddress : string :=
  "MAAAAAAAAAAAAAB7BQ2L7E5NBWMXDUCMZSIPOBKRDSBYVLMXGSSKF6YNPIB7Y77ITLVL6".

(** The key pair of an address: the address without its first letter. *)
Definition keypair_of (address : string) : Keypair :=
  match address with
  | String _ body => body
  | EmptyString => EmptyString
  end.

Definition serverKP : Keypair := keypair_of serverAddress.
Definition clientKP : Keypair := keypair_of clientAddress.
Definition signerKP : Keypair := keypair_of signerAddress.
Definition strangerKP : Keypair := keypair_of strangerAddress.

Definition TESTNET : string := "Test SDF Network ; September 2015".

(** The home domain [e.com] with an acute accent on the [e], which UTF-8
    writes with the bytes 195 and 169. *)
Definition accentedDomain : string :=
  String (ascii_of_nat 195) (String (ascii_of_nat 169) ".com").

(** A transaction as [buildChallengeTx] assembles it, before it is signed. *)
Definition challenge_for (client homeDomain : string) (now timeout : Z)
  : Transaction :=
  TransactionBuilder_build serverAddress (-1) 100 TESTNET
    {| minTime := now; maxTime := now + timeout |}
    [Operation_manageData (homeDomain +++ " auth") "nonce" client].

(** [transaction.sign(kp1, kp2, ...)] *)
Definition sign_all (kps : list Keypair) (t : Transaction) : Transaction :=
  fold_left (fun t kp => sign kp t) kps t.

(** The envelope of a transaction, or the empty text if it has none. *)
Definition envelope (t : Transaction) : string :=
  match toXDR t with
  | OK w => w
  | Err _ => EmptyString
  end.

(** The SDF challenge of the server for the client, valid from 1000 to 1300,
    with the signatures of [kps]. *)
Definition signedChallenge (kps : list Keypair) : string :=
  envelope (sign_all kps (challenge_for clientAddress "SDF" 1000 300)).

End Samples.

(** The challenge of the samples, without any signature. *)
Definition unsignedChallenge : Transaction :=
  Samples.challenge_for Samples.clientAddress "SDF" 1000 300.

Definition challenge_server : string :=
  Samples.signedChallenge [Samples.serverKP].
Definition challenge_client : string :=
  Samples.signedChallenge [Samples.serverKP; Samples.clientKP].
Definition challenge_both : string :=
  Samples.signedChallenge
    [Samples.serverKP; Samples.clientKP; Samples.signerKP].

(** A signer summary with two signers, and one that lists the client
    twice. *)
Definition summary_two : list AccountRecordSigners :=
  [ {| key := Samples.clientAddress; weight := 1 |};
    {| key := Samples.signerAddress; weight := 2 |} ].
Definition summary_duplicate : list AccountRecordSigners :=
  [ {| key := Samples.clientAddress; weight := 1 |};
    {| key := Samples.clientAddress; weight := 5 |} ].

(** The challenge of the samples for a multiplexed client. *)
Definition challenge_muxed : string :=
  Samples.envelope
    (sign (sdk := Toy.sdk) Samples.serverKP
       (Samples.challenge_for Samples.muxedAddress "SDF" 1000 300)).

(** The challenge of the samples without time bounds, signed by the
    server. *)
Definition unbounded_transaction : Transaction :=
  sign (sdk := Toy.sdk) Samples.serverKP
    {| tx_source := Samples.serverAddress;
       tx_sequence := 0;
       tx_fee := 100;
       tx_timeBounds := None;
       tx_operations :=
         [Operation_manageData "SDF auth" "nonce" Samples.clientAddress];
       tx_signatures := [];
       tx_networkPassphrase := Samples.TESTNET |}.

Definition challenge_unbounded : string :=
  Samples.envelope unbounded_transaction.

(** The challenges of the samples, as [readChallengeTx] returns them at the
    instant 1100. *)
Definition sample_read (challengeTx : string) : ReadChallenge :=
  match readChallengeTx (sdk := Toy.sdk) challengeTx Samples.serverAddress
          Samples.TESTNET (hd_string "SDF") 1100 with
  | OK read => read
  | Err _ => {| tx := unsignedChallenge;
                clientAccountID := EmptyString;
                matchedHomeDomain := EmptyString |}
  end.


(* ================================================================== *)
(** * Facts about the helpers *)

Lemma startsWith_charAt0 (s : string) (c d : ascii) :
  charAt0 s = String c EmptyString -> c <> d ->
  startsWith s (String d EmptyString) = false.
Proof.
  destruct s as [|a s]; simpl; [discriminate|].
  intros [= ->] Hcd. unfold startsWith. simpl.
  destruct (ascii_dec d c) as [->|_]; [now elim Hcd|reflexivity].
Qed.

Lemma existsb_eqb_In (x : string) (l : list string) :
  existsb (String.eqb x) l = true <-> In x l.
Proof.
  rewrite existsb_exists. split.
  - intros [y [Hy Hxy]]. apply String.eqb_eq in Hxy. now subst y.
  - intros Hx. exists x. split; [assumption|apply String.eqb_refl].
Qed.

Lemma Set_add_fresh (x : string) (s : list string) :
  ~ In x s -> Set_add x s = s ++ [x].
Proof.
  intros Hx. unfold Set_add.
  destruct (existsb (String.eqb x) s) eqn:E; [|reflexivity].
  apply existsb_eqb_In in E. contradiction.
Qed.

Lemma Set_add_In (x y : string) (s : list string) :
  In y (Set_add x s) <-> y = x \/ In y s.
Proof.
  unfold Set_add. destruct (existsb (String.eqb x) s) eqn:E.
  - apply existsb_eqb_In in E. split; [now right|].
    intros [->|H]; assumption.
  - rewrite in_app_iff. simpl. intuition congruence.
Qed.

Lemma Set_add_NoDup (x : string) (s : list string) :
  NoDup s -> NoDup (Set_add x s).
Proof.
  intros Hs. unfold Set_add.
  destruct (existsb (String.eqb x) s) eqn:E; [assumption|].
  assert (Hx : ~ In x s).
  { intros H. apply existsb_eqb_In in H. congruence. }
  clear E. induction Hs as [|y s Hy Hs IH]; simpl.
  - constructor; [intros []|constructor].
  - constructor.
    + rewrite in_app_iff. simpl. intros [H|[H|[]]]; [contradiction|].
      apply Hx. now left.
    + apply IH. intros H. apply Hx. now right.
Qed.

Section GatherFacts.

Context {sdk : BaseSdk}.

Lemma match_signature_length kp h pool pool' :
  match_signature kp h pool = Some pool' ->
  List.length pool = S (List.length pool').
Proof.
  revert pool'. induction pool as [|d pool IH]; simpl; intros pool' H.
  - discriminate.
  - destruct (negb (Buffer_equals (hint d) (signatureHint kp))).
    + destruct (match_signature kp h pool) as [q|]; [|discriminate].
      injection H as <-. simpl. now rewrite (IH q eq_refl).
    + destruct (verify kp h (signature d)).
      * now injection H as <-.
      * destruct (match_signature kp h pool) as [q|]; [|discriminate].
        injection H as <-. simpl. now rewrite (IH q eq_refl).
Qed.

Lemma match_signature_keeps kp h pool pool' d :
  match_signature kp h pool = Some pool' ->
  matches kp h d = false -> In d pool -> In d pool'.
Proof.
  unfold matches.
  revert pool'. induction pool as [|e pool IH]; simpl; intros pool' H Hd Hin.
  - contradiction.
  - destruct (Buffer_equals (hint e) (signatureHint kp)) eqn:Eh; simpl in H.
    + destruct (verify kp h (signature e)) eqn:Ev.
      * injection H as <-. destruct Hin as [->|Hin]; [|assumption].
        rewrite Eh, Ev in Hd. discriminate.
      * destruct (match_signature kp h pool) as [q|]; [|discriminate].
        injection H as <-. destruct Hin as [->|Hin]; [now left|right].
        now apply IH.
    + destruct (match_signature kp h pool) as [q|]; [|discriminate].
      injection H as <-. destruct Hin as [->|Hin]; [now left|right].
      now apply IH.
Qed.

(** Once the pool is empty the loop is left. *)
Lemma gather_loop_empty_pool h signers found :
  gather_loop h signers [] found = OK (found, []).
Proof. destruct signers; reflexivity. Qed.

(** The loop over [l1 ++ l2] is the loop over [l1] followed by the loop
    over [l2]. *)
Lemma gather_loop_app h l1 l2 pool found :
  gather_loop h (l1 ++ l2) pool found
  = let* st := gather_loop h l1 pool found in
    gather_loop h l2 (snd st) (fst st).
Proof.
  revert pool found. induction l1 as [|signer l1 IH]; intros pool found.
  - reflexivity.
  - simpl. destruct pool as [|d pool].
    + simpl. now rewrite gather_loop_empty_pool.
    + destruct (fromPublicKey signer) as [msg|kp]; [reflexivity|].
      destruct (match_signature kp h (d :: pool)); apply IH.
Qed.

(** Every candidate consumes at most one signature. *)
Lemma gather_loop_wellformed h signers pool found :
  Forall (fun s => exists kp, fromPublicKey s = inr kp) signers ->
  exists found' pool',
    gather_loop h signers pool found = OK (found', pool')
    /\ (List.length pool <= List.length pool' + List.length signers)%nat.
Proof.
  intros Hwf. revert pool found.
  induction Hwf as [|signer signers [kp Hkp] _ IH]; intros pool found.
  - exists found, pool. split; [reflexivity|simpl; lia].
  - simpl. destruct pool as [|d pool].
    + exists found, []. split; [reflexivity|simpl; lia].
    + rewrite Hkp.
      destruct (match_signature kp h (d :: pool)) as [q|] eqn:Hm.
      * apply match_signature_length in Hm.
        destruct (IH q (Set_add signer found)) as (f & p & Hg & Hlen).
        exists f, p. split; [assumption|]. simpl in *. lia.
      * destruct (IH (d :: pool) found) as (f & p & Hg & Hlen).
        exists f, p. split; [assumption|]. simpl in *. lia.
Qed.


(** A signature that no candidate matches stays in the pool. *)
Lemma gather_loop_keeps h signers pool found found' pool' d :
  (forall s kp, In s signers -> fromPublicKey s = inr kp ->
                matches kp h d = false) ->
  In d pool ->
  gather_loop h signers pool found = OK (found', pool') ->
  In d pool'.
Proof.
  revert pool found. induction signers as [|signer signers IH];
    intros pool found Hno Hin Hg.
  - simpl in Hg. now injection Hg as <- <-.
  - simpl in Hg. destruct pool as [|e pool]; [contradiction|].
    destruct (fromPublicKey signer) as [msg|kp] eqn:Hkp; [discriminate|].
    assert (Hno' : forall s kp, In s signers -> fromPublicKey s = inr kp ->
                                matches kp h d = false).
    { intros s k Hs. apply Hno. now right. }
    destruct (match_signature kp h (e :: pool)) as [q|] eqn:Hm.
    + apply (IH q (Set_add signer found)); try assumption.
      apply (match_signature_keeps _ _ _ _ _ Hm); [|assumption].
      apply (Hno signer); [now left|assumption].
    + now apply (IH (e :: pool) found).
Qed.

(** The loop throws when it comes to a candidate that is no public key
    with a signature still in the pool. *)
Lemma gather_loop_malformed h before bad after message pool found :
  Forall (fun s => exists kp, fromPublicKey s = inr kp) before ->
  fromPublicKey bad = inl message ->
  (List.length before < List.length pool)%nat ->
  gather_loop h (before ++ bad :: after) pool found
  = Err (InvalidSep10ChallengeError
           ("Signer is not a valid address: " +++ message)).
Proof.
  intros Hwf Hbad Hlen. rewrite gather_loop_app.
  destruct (gather_loop_wellformed h before pool found Hwf)
    as (f & p & Hg & Hle).
  rewrite Hg. simpl.
  destruct p as [|d p]; [simpl in Hle; lia|].
  now rewrite Hbad.
Qed.

(** The inner loop takes out the first signature that the key matches. *)
Lemma match_signature_remove_first kp h pool :
  match match_signature kp h pool with
  | Some pool' => pool' = remove_first (matches kp h) pool
  | None => remove_first (matches kp h) pool = pool
  end.
Proof.
  unfold matches. induction pool as [|d pool IH]; simpl; [reflexivity|].
  destruct (Buffer_equals (hint d) (signatureHint kp)); simpl.
  - destruct (verify kp h (signature d)); [reflexivity|].
    destruct (match_signature kp h pool); simpl; congruence.
  - destruct (match_signature kp h pool); simpl; congruence.
Qed.

Lemma unmatched_after_nil h signers : unmatched_after h signers [] = [].
Proof.
  induction signers as [|s signers IH]; simpl; [reflexivity|].
  destruct (fromPublicKey s); exact IH.
Qed.

(** Over candidates that are public keys the loop ends with the pool that
    [unmatched_after] describes. *)
Lemma gather_loop_unmatched h signers pool found :
  Forall parses signers ->
  exists found',
    gather_loop h signers pool found
    = OK (found', unmatched_after h signers pool).
Proof.
  intros Hwf. revert pool found.
  induction Hwf as [|signer signers [kp Hkp] _ IH]; intros pool found.
  - now exists found.
  - simpl. destruct pool as [|d pool].
    + exists found. rewrite Hkp. simpl. now rewrite unmatched_after_nil.
    + rewrite Hkp.
      assert (Hm := match_signature_remove_first kp h (d :: pool)).
      destruct (match_signature kp h (d :: pool)) as [q|].
      * rewrite <- Hm. apply IH.
      * rewrite Hm. apply IH.
Qed.

(** A candidate that is no public key, behind candidates that are: the loop
    throws if a signature is still unmatched when it comes to it, and is
    left before the candidate is parsed otherwise. *)
Lemma gather_loop_reaches_malformed h before bad after message pool found :
  Forall parses before ->
  fromPublicKey bad = inl message ->
  gather_loop h (before ++ bad :: after) pool found
  = match unmatched_after h before pool with
    | [] => gather_loop h before pool found
    | _ :: _ =>
        Err (InvalidSep10ChallengeError
               ("Signer is not a valid address: " +++ message))
    end.
Proof.
  intros Hwf Hbad. rewrite gather_loop_app.
  destruct (gather_loop_unmatched h before pool found Hwf) as [f Hg].
  rewrite Hg. cbn [bind fst snd].
  destruct (unmatched_after h before pool) as [|d p].
  - now rewrite gather_loop_empty_pool.
  - simpl. now rewrite Hbad.
Qed.

(** A list of candidates consists of public keys, or has a first candidate
    that is none. *)
Lemma first_malformed (signers : list string) :
  Forall parses signers
  \/ exists before bad after message,
       signers = before ++ bad :: after
       /\ Forall parses before
       /\ fromPublicKey bad = inl message.
Proof.
  induction signers as [|s signers IH]; [left; constructor|].
  destruct (fromPublicKey s) as [message|kp] eqn:Hs.
  - right. exists [], s, signers, message. repeat split; [constructor|assumption].
  - destruct IH as [Hwf|(before & bad & after & message & -> & Hwf & Hbad)].
    + left. constructor; [now exists kp|assumption].
    + right. exists (s :: before), bad, after, message.
      repeat split; [|assumption]. constructor; [now exists kp|assumption].
Qed.

(** With fewer candidates than signatures, a signature is left. *)
Lemma unmatched_after_length h signers pool :
  (List.length signers < List.length pool)%nat ->
  unmatched_after h signers pool <> [].
Proof.
  revert pool. induction signers as [|s signers IH]; intros pool Hlen.
  - simpl in *. destruct pool; [simpl in Hlen; lia|discriminate].
  - simpl. destruct (fromPublicKey s) as [message|kp].
    + apply IH. simpl in Hlen. lia.
    + apply IH. simpl in Hlen.
      assert (List.length pool
              <= S (List.length (remove_first (matches kp h) pool)))%nat;
        [|lia].
      clear. induction pool as [|d pool IHp]; simpl; [lia|].
      destruct (matches kp h d); simpl; lia.
Qed.


(** [gatherTxSigners] on a candidate that is no public key, behind
    candidates that are. *)
Lemma gatherTxSigners_reaches_malformed
    (transaction : AnyTransaction) (before : list string) (bad : string)
    (after : list string) (message : string) :
  Forall parses before ->
  fromPublicKey bad = inl message ->
  (unmatched_after (hash transaction) before (signatures transaction) <> [] ->
   gatherTxSigners transaction (before ++ bad :: after)
   = Err (InvalidSep10ChallengeError
            ("Signer is not a valid address: " +++ message)))
  /\ (unmatched_after (hash transaction) before (signatures transaction) = [] ->
      gatherTxSigners transaction (before ++ bad :: after)
      = gatherTxSigners transaction before
      /\ exists found,
           gatherTxSigners transaction (before ++ bad :: after) = OK found).
Proof.
  intros Hwf Hbad. unfold gatherTxSigners.
  rewrite (gather_loop_reaches_malformed _ _ _ _ message _ _ Hwf Hbad).
  destruct (gather_loop_unmatched (hash transaction) before
              (signatures transaction) [] Hwf) as [found Hg].
  destruct (unmatched_after (hash transaction) before
              (signatures transaction)) as [|d p].
  - split; [intros H; now elim H|]. intros _. split; [reflexivity|].
    exists found. now rewrite Hg.
  - split; [reflexivity|discriminate].
Qed.

End GatherFacts.

(* ================================================================== *)
(** * [gatherTxSigners] *)

Section GatherTxSigners.

Context {sdk : BaseSdk}.

(** C5.  On a transaction that carries no signature, [gatherTxSigners]
    returns the empty list for every non-empty list of candidates; it does
    not throw, whatever the candidates are. *)
Theorem gatherTxSigners_unsigned
    (transaction : AnyTransaction) (signers : list string) :
  signatures transaction = [] ->
  signers <> [] ->
  gatherTxSigners transaction signers = OK [].
Proof.
  intros Hsig _. unfold gatherTxSigners. rewrite Hsig.
  now rewrite gather_loop_empty_pool.
Qed.

(** C4, as amended.  Take the first candidate that is no public key, the
    candidates before it being public keys.  If a signature of the
    transaction is still unmatched after the candidates before it (as it is
    when they are fewer than the signatures), [gatherTxSigners] throws
    [InvalidSep10ChallengeError("Signer is not a valid address: ...")] with
    the message of [Keypair.fromPublicKey] for that candidate.  If no
    signature is left, the candidate and all that follow it are skipped:
    [gatherTxSigners] returns what it returns for the candidates before it.
    [gatherTxSigners] throws in no other case. *)
Theorem gatherTxSigners_malformed_candidate
    (transaction : AnyTransaction) (signers : list string) :
  let left_after before :=
    unmatched_after (hash transaction) before (signatures transaction) in
  let invalid message :=
    Err (InvalidSep10ChallengeError
           ("Signer is not a valid address: " +++ message)) in
  (forall before bad after message,
     signers = before ++ bad :: after ->
     Forall parses before ->
     fromPublicKey bad = inl message ->
     (left_after before <> [] ->
      gatherTxSigners transaction signers = invalid message)
     /\ (left_after before = [] ->
         gatherTxSigners transaction signers
         = gatherTxSigners transaction before
         /\ exists found, gatherTxSigners transaction signers = OK found)
     /\ ((List.length before < List.length (signatures transaction))%nat ->
         gatherTxSigners transaction signers = invalid message))
  /\ (forall e,
        gatherTxSigners transaction signers = Err e ->
        exists before bad after message,
          signers = before ++ bad :: after
          /\ Forall parses before
          /\ fromPublicKey bad = inl message
          /\ left_after before <> []
          /\ Err e = invalid message).
Proof.
  intros left_after invalid.
  assert (Hfirst : forall before bad after message,
    signers = before ++ bad :: after ->
    Forall parses before ->
    fromPublicKey bad = inl message ->
    (left_after before <> [] ->
     gatherTxSigners transaction signers = invalid message)
    /\ (left_after before = [] ->
        gatherTxSigners transaction signers
        = gatherTxSigners transaction before
        /\ exists found, gatherTxSigners transaction signers = OK found)).
  { intros before bad after message -> Hwf Hbad.
    now apply gatherTxSigners_reaches_malformed. }
  split.
  - intros before bad after message Hsplit Hwf Hbad.
    destruct (Hfirst before bad after message Hsplit Hwf Hbad) as [H1 H2].
    split; [exact H1|]. split; [exact H2|].
    intros Hlen. apply H1. now apply unmatched_after_length.
  - intros e He.
    destruct (first_malformed signers)
      as [Hwf|(before & bad & after & message & Hsplit & Hwf & Hbad)].
    + exfalso. unfold gatherTxSigners in He.
      destruct (gather_loop_wellformed (hash transaction) signers
                  (signatures transaction) [] Hwf) as (f & p & Hg & _).
      rewrite Hg in He. discriminate.
    + exists before, bad, after, message.
      destruct (Hfirst before bad after message Hsplit Hwf Hbad) as [H1 H2].
      destruct (left_after before) as [|d p] eqn:Hleft.
      * destruct (H2 eq_refl) as (_ & found & Hfound).
        rewrite Hfound in He. discriminate.
      * assert (Hne : d :: p <> []) by discriminate.
        repeat split; try assumption. rewrite <- He. now apply H1.
Qed.

End GatherTxSigners.

(* ================================================================== *)
(** * [verifyChallengeTxSigners] *)

Lemma collect_clientSigners_filter pk signers acc :
  collect_clientSigners pk signers acc
  = collect_clientSigners pk (filter (verifiable pk) signers) acc.
Proof.
  revert acc. induction signers as [|s signers IH]; intros acc.
  - reflexivity.
  - simpl. unfold verifiable at 1.
    destruct (String.eqb s pk) eqn:Es; simpl; [apply IH|].
    destruct (String.eqb (charAt0 s) "G") eqn:Eg; simpl; [|apply IH].
    rewrite Es, Eg. simpl. apply IH.
Qed.


Section VerifyChallengeTxSigners.

Context {sdk : BaseSdk}.

(** A string that does not start with G is not a public key. *)
Lemma fromPublicKey_not_G (s : string) :
  String.eqb (charAt0 s) "G" = false ->
  exists message, fromPublicKey s = inl message.
Proof.
  intros Hs. destruct (fromPublicKey s) as [message|kp] eqn:E.
  - now exists message.
  - apply fromPublicKey_publicKey in E. subst s.
    rewrite publicKey_G in Hs. discriminate.
Qed.


Lemma collect_clientSigners_nil pk signers :
  filter (verifiable pk) signers = [] ->
  collect_clientSigners pk signers [] = [].
Proof.
  intros H. rewrite collect_clientSigners_filter, H. reflexivity.
Qed.

(** C7, as amended.  [verifyChallengeTxSigners] gives the same outcome with
    and without the candidates that are the server's address or do not
    start with G: they are skipped without an error.  If no candidate is
    left, it throws [InvalidSep10ChallengeError("No verifiable client
    signers provided, at least one G... address must be provided")].
    [gatherTxSigners] throws on a candidate that does not start with G when
    it reaches it, the candidates before it being public keys, with a
    signature still unmatched: in particular when the candidate comes first
    and the transaction carries a signature.  Once no signature is left
    unmatched, [gatherTxSigners] skips the candidate too, with all that
    follow it. *)
Theorem verifyChallengeTxSigners_ignores_unverifiable
    challengeTx serverAccountID networkPassphrase signers homeDomains now :
  verifyChallengeTxSigners challengeTx serverAccountID networkPassphrase
    signers homeDomains now
  = verifyChallengeTxSigners challengeTx serverAccountID networkPassphrase
      (filter (verifiable serverAccountID) signers) homeDomains now
  /\ (forall read serverKP,
        readChallengeTx challengeTx serverAccountID networkPassphrase
          homeDomains now = OK read ->
        fromPublicKey serverAccountID = inr serverKP ->
        filter (verifiable serverAccountID) signers = [] ->
        verifyChallengeTxSigners challengeTx serverAccountID networkPassphrase
          signers homeDomains now
        = Err (InvalidSep10ChallengeError
            "No verifiable client signers provided, at least one G... address must be provided"))
  /\ (forall transaction candidate others,
        String.eqb (charAt0 candidate) "G" = false ->
        signatures transaction <> [] ->
        exists message,
          fromPublicKey candidate = inl message
          /\ gatherTxSigners transaction (candidate :: others)
             = Err (InvalidSep10ChallengeError
                      ("Signer is not a valid address: " +++ message)))
  /\ (forall transaction before candidate after,
        String.eqb (charAt0 candidate) "G" = false ->
        Forall parses before ->
        exists message,
          fromPublicKey candidate = inl message
          /\ (unmatched_after (hash transaction) before
                (signatures transaction) <> [] ->
              gatherTxSigners transaction (before ++ candidate :: after)
              = Err (InvalidSep10ChallengeError
                       ("Signer is not a valid address: " +++ message)))
          /\ (unmatched_after (hash transaction) before
                (signatures transaction) = [] ->
              gatherTxSigners transaction (before ++ candidate :: after)
              = gatherTxSigners transaction before
              /\ exists found,
                   gatherTxSigners transaction (before ++ candidate :: after)
                   = OK found)).
Proof.
  split; [|split; [|split]].
  - unfold verifyChallengeTxSigners.
    destruct (readChallengeTx _ _ _ _ _) as [read|e]; [simpl|reflexivity].
    destruct (fromPublicKey serverAccountID) as [message|serverKP] eqn:Hkey;
      [reflexivity|].
    rewrite (fromPublicKey_publicKey _ _ Hkey).
    now rewrite (collect_clientSigners_filter serverAccountID signers).
  - intros read serverKP Hread Hkey Hnone.
    unfold verifyChallengeTxSigners. rewrite Hread. simpl. rewrite Hkey.
    rewrite (fromPublicKey_publicKey _ _ Hkey).
    now rewrite (collect_clientSigners_nil _ _ Hnone).
  - intros transaction candidate others Hg Hsig.
    destruct (fromPublicKey_not_G candidate Hg) as [message Hbad].
    exists message. split; [assumption|].
    unfold gatherTxSigners.
    rewrite (gather_loop_malformed _ [] candidate others message);
      [reflexivity|constructor|assumption|].
    destruct (signatures transaction); [now elim Hsig|simpl; lia].
  - intros transaction before candidate after Hg Hwf.
    destruct (fromPublicKey_not_G candidate Hg) as [message Hbad].
    exists message. split; [assumption|].
    now apply gatherTxSigners_reaches_malformed.
Qed.

End VerifyChallengeTxSigners.

(* ================================================================== *)
(** * [verifyChallengeTxThreshold] *)

Lemma add_weights_total signerSummary signersFound w :
  add_weights signerSummary signersFound w
  = w + total_weight signerSummary signersFound.
Proof.
  revert w. induction signersFound as [|a l IH]; intros w; simpl.
  - unfold total_weight. simpl. lia.
  - rewrite IH. unfold total_weight. simpl. lia.
Qed.


Lemma sigWeight_first signerSummary before entry after :
  signerSummary = before ++ entry :: after ->
  (forall e, In e before -> key e <> key entry) ->
  sigWeight signerSummary (key entry) = weight entry.
Proof.
  intros -> Hbefore. unfold sigWeight.
  induction before as [|e before IH]; simpl.
  - now rewrite String.eqb_refl.
  - destruct (String.eqb (key e) (key entry)) eqn:E.
    + apply String.eqb_eq in E. elim (Hbefore e); [now left|assumption].
    + apply IH. intros e' He'. apply Hbefore. now right.
Qed.

Section VerifyChallengeTxThreshold.

Context {sdk : BaseSdk}.


End VerifyChallengeTxThreshold.

(* ================================================================== *)
(** * Multiplexed accounts *)

Section Multiplexed.

Context {sdk : BaseSdk}.

(** C6, as amended.  [buildChallengeTx] rejects a [clientAccountID] that
    starts with M before it does anything else, and [readChallengeTx]
    rejects a [serverAccountID] that starts with M before it parses the
    challenge, whatever the challenge is; so do the two verifiers, which
    read the challenge first. *)
Theorem multiplexed_accounts_rejected_first :
  (forall serverKeypair client homeDomain timeout networkPassphrase now value,
     startsWith client "M" = true ->
     buildChallengeTx serverKeypair client homeDomain timeout
       networkPassphrase now value
     = Err (JsError
         "Invalid clientAccountID: multiplexed accounts are not supported."))
  /\ (forall challengeTx server networkPassphrase homeDomains now,
        startsWith server "M" = true ->
        readChallengeTx challengeTx server networkPassphrase homeDomains now
        = Err (JsError
            "Invalid serverAccountID: multiplexed accounts are not supported."))
  /\ (forall challengeTx server networkPassphrase signers homeDomains now,
        startsWith server "M" = true ->
        verifyChallengeTxSigners challengeTx server networkPassphrase signers
          homeDomains now
        = Err (JsError
            "Invalid serverAccountID: multiplexed accounts are not supported."))
  /\ (forall challengeTx server networkPassphrase threshold signerSummary
             homeDomains now,
        startsWith server "M" = true ->
        verifyChallengeTxThreshold challengeTx server networkPassphrase
          threshold signerSummary homeDomains now
        = Err (JsError
            "Invalid serverAccountID: multiplexed accounts are not supported.")).
Proof.
  repeat split; intros.
  - unfold buildChallengeTx. now rewrite H.
  - unfold readChallengeTx. now rewrite H.
  - unfold verifyChallengeTxSigners, readChallengeTx. now rewrite H.
  - unfold verifyChallengeTxThreshold, verifyChallengeTxSigners,
      readChallengeTx. now rewrite H.
Qed.

End Multiplexed.

(* ================================================================== *)
(** * [readChallengeTx] *)

Section ReadChallengeTx.

Context {sdk : BaseSdk}.

Lemma truthy_string_Some v s :
  truthy_string v = Some s -> s <> EmptyString.
Proof.
  destruct v as [x|]; simpl; [|discriminate].
  destruct (String.eqb x EmptyString) eqn:E; [discriminate|].
  intros [= <-]. now apply String.eqb_neq.
Qed.

Lemma truthy_string_keep s :
  s <> EmptyString -> truthy_string (Some s) = Some s.
Proof.
  intros H. simpl. apply String.eqb_neq in H. now rewrite H.
Qed.

Lemma validateTimebounds_true transaction now :
  validateTimebounds transaction now = true
  <-> exists tb, tx_timeBounds transaction = Some tb
                 /\ minTime tb <= now <= maxTime tb.
Proof.
  unfold validateTimebounds. destruct (tx_timeBounds transaction) as [tb|].
  - rewrite andb_true_iff, !Z.leb_le. split.
    + intros H. now exists tb.
    + intros (tb' & [= <-] & H). exact H.
  - split; [discriminate|]. intros (tb & H & _). discriminate.
Qed.

Lemma validateTimebounds_false transaction now :
  validateTimebounds transaction now = false
  <-> tx_timeBounds transaction = None
      \/ exists tb, tx_timeBounds transaction = Some tb
                    /\ (now < minTime tb \/ maxTime tb < now).
Proof.
  unfold validateTimebounds. destruct (tx_timeBounds transaction) as [tb|].
  - rewrite andb_false_iff, !Z.leb_gt. split.
    + intros H. right. now exists tb.
    + intros [H|(tb' & [= <-] & H)]; [discriminate|exact H].
  - split; [now left|reflexivity].
Qed.

(** [readChallengeTx] from its check of the time bounds on, once the
    earlier checks have passed. *)
Lemma readChallengeTx_from_timebounds
    challengeTx serverAccountID networkPassphrase homeDomains now
    transaction operation subsequentOperations client :
  StructureChecked challengeTx serverAccountID networkPassphrase
    transaction operation subsequentOperations client ->
  readChallengeTx challengeTx serverAccountID networkPassphrase
    homeDomains now
  = if match tx_timeBounds transaction with
       | Some tb => maxTime tb =? TimeoutInfinite
       | None => false
       end then
      Err (InvalidSep10ChallengeError
        "The transaction requires non-infinite timebounds")
    else if negb (validateTimebounds transaction now) then
      Err (InvalidSep10ChallengeError "The transaction has expired")
    else if falsy_homeDomains homeDomains then
      Err (InvalidSep10ChallengeError
        "Invalid homeDomains: a home domain must be provided for verification")
    else
      let* matched :=
        match homeDomains with
        | hd_string homeDomain =>
            if String.eqb (homeDomain +++ " auth") (op_name operation)
            then OK (Some homeDomain) else OK None
        | hd_array domains => OK (find_homeDomain (op_name operation) domains)
        | hd_other js_typeof _ =>
            Err (InvalidSep10ChallengeError
              ("Invalid homeDomains: homeDomains type is " +++ js_typeof +++
               " but should be a string or an array"))
        end in
      match truthy_string matched with
      | None =>
          Err (InvalidSep10ChallengeError
            "Invalid homeDomains: the transaction's operation key name does not match the expected home domain")
      | Some matched =>
          let* _ :=
            check_subsequentOperations serverAccountID subsequentOperations in
          OK {| tx := transaction;
                clientAccountID := client;
                matchedHomeDomain := matched |}
      end.
Proof.
  intros [Hserver Hparse Hseq Hsrc Hops Hclient Htype].
  unfold readChallengeTx. rewrite Hserver, Hparse. cbn [bind].
  rewrite Hseq, Hsrc, String.eqb_refl. cbn [Z.eqb negb].
  rewrite Hops, Hclient, Htype. reflexivity.
Qed.

(** A successful [readChallengeTx] has passed every check. *)
Lemma readChallengeTx_inv
    challengeTx serverAccountID networkPassphrase homeDomains now read :
  readChallengeTx challengeTx serverAccountID networkPassphrase
    homeDomains now = OK read ->
  exists operation subsequentOperations,
    StructureChecked challengeTx serverAccountID networkPassphrase
      (tx read) operation subsequentOperations (clientAccountID read)
    /\ TimeboundsChecked (tx read) now
    /\ HomeDomainMatched homeDomains (op_name operation)
         (matchedHomeDomain read)
    /\ check_subsequentOperations serverAccountID subsequentOperations
       = OK tt.
Proof.
  unfold readChallengeTx.
  destruct (startsWith serverAccountID "M") eqn:Hserver; [discriminate|].
  destruct (fromXDR challengeTx networkPassphrase) as [[transaction|fb]|e]
    eqn:Hparse; cbn [bind]; try discriminate.
  destruct (tx_sequence transaction =? 0) eqn:Hseq; [|discriminate].
  cbn [negb].
  destruct (String.eqb (tx_source transaction) serverAccountID) eqn:Hsrc;
    [|discriminate]. cbn [negb].
  destruct (tx_operations transaction) as [|operation rest] eqn:Hops;
    [discriminate|].
  destruct (truthy_string (op_source operation)) as [client|] eqn:Hclient;
    [|discriminate].
  destruct (String.eqb (op_type operation) "manageData") eqn:Htype;
    [|discriminate]. cbn [negb].
  destruct (tx_timeBounds transaction) as [tb|] eqn:Htb.
  2:{ unfold validateTimebounds. rewrite Htb. discriminate. }
  destruct (maxTime tb =? TimeoutInfinite) eqn:Hinf; [discriminate|].
  destruct (validateTimebounds transaction now) eqn:Hvalid; [|discriminate].
  cbn [negb].
  destruct (falsy_homeDomains homeDomains) eqn:Hfalsy; [discriminate|].
  intros H.
  assert (Hstructure :
    StructureChecked challengeTx serverAccountID networkPassphrase
      transaction operation rest client).
  { constructor; try assumption.
    - now apply Z.eqb_eq.
    - now apply String.eqb_eq.
    - now apply String.eqb_eq. }
  assert (Htime : TimeboundsChecked transaction now).
  { exists tb. split; [assumption|]. split; [now apply Z.eqb_neq|].
    apply validateTimebounds_true in Hvalid.
    destruct Hvalid as (tb' & E & Hin). congruence. }
  assert (Hkeep : forall v d, truthy_string v = Some d -> v = Some d).
  { intros [x|] d; simpl; [|discriminate].
    destruct (String.eqb x EmptyString); [discriminate|congruence]. }
  destruct homeDomains as [homeDomain|domains|js_typeof truthy].
  - destruct (String.eqb (homeDomain +++ " auth") (op_name operation))
      eqn:Hname; cbn [bind] in H; [|discriminate].
    destruct (truthy_string (Some homeDomain)) as [d|] eqn:Hd;
      [|discriminate].
    destruct (check_subsequentOperations serverAccountID rest) as [[]|e]
      eqn:Hrest; cbn [bind] in H; [|discriminate].
    injection H as <-. exists operation, rest.
    cbn [tx clientAccountID matchedHomeDomain].
    split; [exact Hstructure|]. split; [exact Htime|].
    split; [|exact Hrest].
    split; [now apply truthy_string_Some in Hd|].
    apply Hkeep in Hd. injection Hd as ->.
    apply String.eqb_eq in Hname. now split.
  - cbn [bind] in H.
    destruct (truthy_string (find_homeDomain (op_name operation) domains))
      as [d|] eqn:Hd; [|discriminate].
    destruct (check_subsequentOperations serverAccountID rest) as [[]|e]
      eqn:Hrest; cbn [bind] in H; [|discriminate].
    injection H as <-. exists operation, rest.
    cbn [tx clientAccountID matchedHomeDomain].
    split; [exact Hstructure|]. split; [exact Htime|].
    split; [|exact Hrest].
    split; [now apply truthy_string_Some in Hd|].
    now apply Hkeep in Hd.
  - discriminate.
Qed.

(** A challenge that passes every check is read. *)
Lemma readChallengeTx_intro
    challengeTx serverAccountID networkPassphrase homeDomains now
    transaction operation subsequentOperations client domain :
  StructureChecked challengeTx serverAccountID networkPassphrase
    transaction operation subsequentOperations client ->
  TimeboundsChecked transaction now ->
  HomeDomainMatched homeDomains (op_name operation) domain ->
  check_subsequentOperations serverAccountID subsequentOperations = OK tt ->
  readChallengeTx challengeTx serverAccountID networkPassphrase
    homeDomains now
  = OK {| tx := transaction;
          clientAccountID := client;
          matchedHomeDomain := domain |}.
Proof.
  intros Hstructure (tb & Htb & Hinf & Hin) (Hdomain & Hmatch) Hrest.
  rewrite (readChallengeTx_from_timebounds _ _ _ _ _ _ _ _ _ Hstructure).
  rewrite Htb. apply Z.eqb_neq in Hinf. rewrite Hinf.
  assert (Hvalid : validateTimebounds transaction now = true).
  { apply validateTimebounds_true. now exists tb. }
  rewrite Hvalid. cbn [negb].
  destruct homeDomains as [homeDomain|domains|js_typeof truthy].
  - destruct Hmatch as [-> Hname]. cbn [falsy_homeDomains].
    apply String.eqb_neq in Hdomain. rewrite Hdomain.
    rewrite Hname, String.eqb_refl. cbn [bind].
    apply String.eqb_neq in Hdomain.
    rewrite (truthy_string_keep _ Hdomain), Hrest. reflexivity.
  - cbn [falsy_homeDomains bind]. rewrite Hmatch.
    rewrite (truthy_string_keep _ Hdomain), Hrest. reflexivity.
  - contradiction.
Qed.

Lemma check_subsequentOperations_errors serverAccountID ops e :
  check_subsequentOperations serverAccountID ops = Err e ->
  e = InvalidSep10ChallengeError
        "The transaction has operations that are not of type 'manageData'"
  \/ e = InvalidSep10ChallengeError
           "The transaction has operations that are unrecognized".
Proof.
  induction ops as [|op ops IH]; simpl; [discriminate|].
  destruct (negb (String.eqb (op_type op) "manageData")).
  - intros [= <-]. now left.
  - destruct (negb _); [|exact IH]. intros [= <-]. now right.
Qed.

(** Past the check of the clock, [readChallengeTx] does not throw the expiry
    error any more. *)
Lemma readChallengeTx_not_expired_later
    homeDomains transaction operation subsequentOperations
    serverAccountID client :
  falsy_homeDomains homeDomains = false ->
  (let* matched :=
     match homeDomains with
     | hd_string homeDomain =>
         if String.eqb (homeDomain +++ " auth") (op_name operation)
         then OK (Some homeDomain) else OK None
     | hd_array domains => OK (find_homeDomain (op_name operation) domains)
     | hd_other js_typeof _ =>
         Err (InvalidSep10ChallengeError
           ("Invalid homeDomains: homeDomains type is " +++ js_typeof +++
            " but should be a string or an array"))
     end in
   match truthy_string matched with
   | None =>
       Err (InvalidSep10ChallengeError
         "Invalid homeDomains: the transaction's operation key name does not match the expected home domain")
   | Some matched =>
       let* _ :=
         check_subsequentOperations serverAccountID subsequentOperations in
       OK {| tx := transaction;
             clientAccountID := client;
             matchedHomeDomain := matched |}
   end)
  <> Err (InvalidSep10ChallengeError "The transaction has expired").
Proof.
  intros _.
  assert (Hlast : forall matched,
    match truthy_string matched with
    | None =>
        Err (InvalidSep10ChallengeError
          "Invalid homeDomains: the transaction's operation key name does not match the expected home domain")
    | Some matched =>
        let* _ :=
          check_subsequentOperations serverAccountID subsequentOperations in
        OK {| tx := transaction;
              clientAccountID := client;
              matchedHomeDomain := matched |}
    end
    <> Err (InvalidSep10ChallengeError "The transaction has expired")).
  { intros matched. destruct (truthy_string matched); [|discriminate].
    destruct (check_subsequentOperations serverAccountID subsequentOperations)
      as [[]|e] eqn:E; cbn [bind]; [discriminate|].
    destruct (check_subsequentOperations_errors _ _ _ E) as [-> | ->];
      discriminate. }
  destruct homeDomains as [homeDomain|domains|js_typeof truthy].
  - destruct (String.eqb _ _); cbn [bind]; apply Hlast.
  - cbn [bind]. apply Hlast.
  - cbn [bind]. simpl. discriminate.
Qed.

(** C8.  Once the earlier checks of [readChallengeTx] have passed (the
    structure of the challenge, and a [maxTime] that is not
    [TimeoutInfinite]), it throws
    [InvalidSep10ChallengeError("The transaction has expired")] exactly when
    the transaction has no time bounds or [now] lies outside
    [[minTime, maxTime]].  Without time bounds the error is this same one.
    A challenge with time bounds that can be read at all is read at
    [now = maxTime], with the same result, and at [now = maxTime + 1] the
    expiry error is thrown. *)
Theorem readChallengeTx_expiry
    challengeTx serverAccountID networkPassphrase homeDomains
    transaction operation subsequentOperations client :
  StructureChecked challengeTx serverAccountID networkPassphrase
    transaction operation subsequentOperations client ->
  (forall tb, tx_timeBounds transaction = Some tb ->
              maxTime tb <> TimeoutInfinite) ->
  let read_at now :=
    readChallengeTx challengeTx serverAccountID networkPassphrase
      homeDomains now in
  let expired :=
    Err (InvalidSep10ChallengeError "The transaction has expired") in
  (forall now,
     read_at now = expired
     <-> (tx_timeBounds transaction = None
          \/ exists tb, tx_timeBounds transaction = Some tb
                        /\ (now < minTime tb \/ maxTime tb < now)))
  /\ (tx_timeBounds transaction = None -> forall now, read_at now = expired)
  /\ (forall tb now0 read,
        tx_timeBounds transaction = Some tb ->
        read_at now0 = OK read ->
        read_at (maxTime tb) = OK read
        /\ read_at (maxTime tb + 1) = expired).
Proof.
  intros Hstructure Hfinite read_at expired.
  assert (Hiff : forall now,
    read_at now = expired <-> validateTimebounds transaction now = false).
  { intros now. unfold read_at.
    rewrite (readChallengeTx_from_timebounds _ _ _ _ _ _ _ _ _ Hstructure).
    assert (Hinf : match tx_timeBounds transaction with
                   | Some tb => maxTime tb =? TimeoutInfinite
                   | None => false
                   end = false).
    { destruct (tx_timeBounds transaction) as [tb|] eqn:Htb; [|reflexivity].
      apply Z.eqb_neq. now apply Hfinite. }
    rewrite Hinf.
    destruct (validateTimebounds transaction now); cbn [negb].
    - split; [|discriminate]. intros H. exfalso. revert H.
      destruct (falsy_homeDomains homeDomains) eqn:Hfalsy; [discriminate|].
      now apply readChallengeTx_not_expired_later.
    - split; reflexivity. }
  split; [|split].
  - intros now. rewrite Hiff. apply validateTimebounds_false.
  - intros Hnone now. apply Hiff. apply validateTimebounds_false. now left.
  - intros tb now0 read Htb Hread.
    destruct (readChallengeTx_inv _ _ _ _ _ _ Hread)
      as (operation' & rest' & Hstructure' & Htime & Hdomain & Hrest).
    destruct Htime as (tb' & Htb' & Hinf & Hin).
    assert (Htx : tx read = transaction).
    { destruct Hstructure as [_ Hp _ _ _ _ _].
      destruct Hstructure' as [_ Hp' _ _ _ _ _]. congruence. }
    rewrite Htx in *. assert (tb' = tb) by congruence. subst tb'.
    split.
    + unfold read_at.
      rewrite (readChallengeTx_intro _ _ _ _ _ _ _ _ _ _ Hstructure'
                 (ex_intro _ tb (conj Htb (conj Hinf
                    (conj (Z.le_trans _ _ _ (proj1 Hin) (proj2 Hin))
                          (Z.le_refl _))))) Hdomain Hrest).
      destruct read. simpl in *. now subst.
    + apply Hiff. apply validateTimebounds_false. right. exists tb.
      split; [assumption|]. right. lia.
Qed.

End ReadChallengeTx.

(* ================================================================== *)
(** * Reading what [buildChallengeTx] builds *)

Lemma find_homeDomain_first name before domain after :
  (forall d, In d before -> name <> d +++ " auth") ->
  name = domain +++ " auth" ->
  find_homeDomain name (before ++ domain :: after) = Some domain.
Proof.
  intros Hbefore ->. unfold find_homeDomain.
  induction before as [|d before IH]; simpl.
  - now rewrite String.eqb_refl.
  - destruct (String.eqb (d +++ " auth") (domain +++ " auth")) eqn:E.
    + apply String.eqb_eq in E. elim (Hbefore d); [now left|congruence].
    + apply IH. intros d' Hd'. apply Hbefore. now right.
Qed.

Lemma find_homeDomain_none name domains :
  (forall d, In d domains -> name <> d +++ " auth") ->
  find_homeDomain name domains = None.
Proof.
  unfold find_homeDomain. induction domains as [|d domains IH]; simpl.
  - reflexivity.
  - intros H. destruct (String.eqb (d +++ " auth") name) eqn:E.
    + apply String.eqb_eq in E. elim (H d); [now left|congruence].
    + apply IH. intros d' Hd'. apply H. now right.
Qed.

Lemma find_homeDomain_Some name domains domain :
  find_homeDomain name domains = Some domain ->
  exists before after,
    domains = before ++ domain :: after
    /\ name = domain +++ " auth"
    /\ (forall d, In d before -> name <> d +++ " auth").
Proof.
  unfold find_homeDomain. induction domains as [|x domains IH]; simpl.
  - discriminate.
  - destruct (String.eqb (x +++ " auth") name) eqn:E.
    + intros [= <-]. apply String.eqb_eq in E.
      exists [], domains. repeat split; [congruence|intros d []].
    + intros H. destruct (IH H) as (before & after & -> & Hname & Hbefore).
      exists (x :: before), after. repeat split; [assumption|].
      intros d [<-|Hd]; [|now apply Hbefore].
      apply String.eqb_neq in E. congruence.
Qed.

Section BuildAndRead.

Context {sdk : BaseSdk}.

Lemma ascii_only_app (s t : string) :
  ascii_only (s +++ t) = ascii_only s && ascii_only t.
Proof.
  induction s as [|c s IH]; simpl; [reflexivity|].
  now rewrite IH, andb_assoc.
Qed.

(** A challenge that [buildChallengeTx] returns passes the checks that
    [readChallengeTx] makes on its structure; the transaction parsed is the
    one that was built, with the key name of its operation decoded. *)
Lemma buildChallengeTx_parsed
    serverKeypair client homeDomain timeout networkPassphrase now value
    challengeTx :
  buildChallengeTx serverKeypair client homeDomain timeout networkPassphrase
    now value = OK challengeTx ->
  client <> EmptyString ->
  StructureChecked challengeTx (publicKey serverKeypair) networkPassphrase
    (decode_names decodeName
       (built_transaction serverKeypair client homeDomain timeout
          networkPassphrase now value))
    (Operation_manageData (decodeName (homeDomain +++ " auth")) value client)
    [] client.
Proof.
  unfold buildChallengeTx. destruct (startsWith client "M"); [discriminate|].
  intros Hxdr Hclient. constructor.
  - apply (startsWith_charAt0 _ "G"); [apply publicKey_G|discriminate].
  - apply (fromXDR_toXDR _ _ networkPassphrase) in Hxdr. exact Hxdr.
  - reflexivity.
  - reflexivity.
  - reflexivity.
  - now apply truthy_string_keep.
  - reflexivity.
Qed.

(** With a home domain of the ASCII range the transaction parsed is the one
    that was built. *)
Lemma built_transaction_decoded
    serverKeypair client homeDomain timeout networkPassphrase now value :
  decodeName (homeDomain +++ " auth") = homeDomain +++ " auth" ->
  decode_names decodeName
    (built_transaction serverKeypair client homeDomain timeout
       networkPassphrase now value)
  = built_transaction serverKeypair client homeDomain timeout
      networkPassphrase now value.
Proof.
  intros H. unfold built_transaction, sign, push_signature, decode_names,
    TransactionBuilder_build. cbn.
  unfold set_name, Operation_manageData. cbn. now rewrite H.
Qed.

Lemma decodeName_homeDomain (homeDomain : string) :
  ascii_only homeDomain = true ->
  decodeName (homeDomain +++ " auth") = homeDomain +++ " auth".
Proof.
  intros H. apply decodeName_ascii. rewrite ascii_only_app, H. reflexivity.
Qed.

Lemma buildChallengeTx_checked
    serverKeypair client homeDomain timeout networkPassphrase now value
    challengeTx :
  buildChallengeTx serverKeypair client homeDomain timeout networkPassphrase
    now value = OK challengeTx ->
  client <> EmptyString ->
  ascii_only homeDomain = true ->
  StructureChecked challengeTx (publicKey serverKeypair) networkPassphrase
    (built_transaction serverKeypair client homeDomain timeout
       networkPassphrase now value)
    (Operation_manageData (homeDomain +++ " auth") value client) [] client.
Proof.
  intros Hbuild Hclient Hascii.
  assert (H := buildChallengeTx_parsed _ _ _ _ _ _ _ _ Hbuild Hclient).
  rewrite (decodeName_homeDomain _ Hascii) in H.
  rewrite built_transaction_decoded in H; [exact H|].
  now apply decodeName_homeDomain.
Qed.

(** C1, as amended.  Take a challenge that [buildChallengeTx] returns for a
    non-empty client account ID and a non-empty home domain, with a
    [timeout] such that [now + timeout] is not [TimeoutInfinite], and read
    it with [readChallengeTx] (the server's public key, the same network
    passphrase, the same home domain) at an instant from [now] to
    [now + timeout].  If the home domain is of the ASCII range, or more
    generally if the base package decodes the key name [homeDomain auth] as
    it was written, the result is the transaction that was built, the
    client account ID and the home domain.  If the key name is decoded as
    another text, [readChallengeTx] throws the domain-mismatch error. *)
Theorem buildChallengeTx_readChallengeTx
    serverKeypair client homeDomain timeout networkPassphrase now value
    challengeTx later :
  buildChallengeTx serverKeypair client homeDomain timeout networkPassphrase
    now value = OK challengeTx ->
  client <> EmptyString ->
  homeDomain <> EmptyString ->
  now + timeout <> TimeoutInfinite ->
  now <= later <= now + timeout ->
  let read :=
    readChallengeTx challengeTx (publicKey serverKeypair) networkPassphrase
      (hd_string homeDomain) later in
  let built :=
    OK {| tx := built_transaction serverKeypair client homeDomain timeout
                  networkPassphrase now value;
          clientAccountID := client;
          matchedHomeDomain := homeDomain |} in
  (ascii_only homeDomain = true -> read = built)
  /\ (decodeName (homeDomain +++ " auth") = homeDomain +++ " auth" ->
      read = built)
  /\ (decodeName (homeDomain +++ " auth") <> homeDomain +++ " auth" ->
      read
      = Err (InvalidSep10ChallengeError
          "Invalid homeDomains: the transaction's operation key name does not match the expected home domain")).
Proof.
  intros Hbuild Hclient Hdomain Hfinite Hlater read built.
  assert (Hstructure := buildChallengeTx_parsed _ _ _ _ _ _ _ _
                          Hbuild Hclient).
  assert (Htime : TimeboundsChecked
                    (decode_names decodeName
                       (built_transaction serverKeypair client homeDomain
                          timeout networkPassphrase now value)) later).
  { exists {| minTime := now; maxTime := now + timeout |}.
    repeat split; try assumption; apply Hlater. }
  assert (Hsame :
    decodeName (homeDomain +++ " auth") = homeDomain +++ " auth" ->
    read = built).
  { intros Hname. unfold read, built.
    rewrite <- (built_transaction_decoded serverKeypair client homeDomain
                  timeout networkPassphrase now value Hname).
    apply (readChallengeTx_intro _ _ _ _ _ _ _ _ _ _ Hstructure Htime);
      [|reflexivity].
    split; [assumption|]. split; [reflexivity|]. exact Hname. }
  split; [|split].
  - intros Hascii. apply Hsame. now apply decodeName_homeDomain.
  - exact Hsame.
  - intros Hname. unfold read.
    rewrite (readChallengeTx_from_timebounds _ _ _ _ _ _ _ _ _ Hstructure).
    destruct Htime as (tb & Htb & Hinf & Hin).
    rewrite Htb. apply Z.eqb_neq in Hinf. rewrite Hinf.
    assert (Hvalid : validateTimebounds
                       (decode_names decodeName
                          (built_transaction serverKeypair client homeDomain
                             timeout networkPassphrase now value)) later
                     = true).
    { apply validateTimebounds_true. now exists tb. }
    rewrite Hvalid. cbn [negb falsy_homeDomains].
    apply String.eqb_neq in Hdomain. rewrite Hdomain.
    cbn [op_name Operation_manageData].
    assert (E : String.eqb (homeDomain +++ " auth")
                  (decodeName (homeDomain +++ " auth")) = false).
    { apply String.eqb_neq. congruence. }
    rewrite E. reflexivity.
Qed.

(** C9.  Once the earlier checks of [readChallengeTx] have passed: with a
    string for [homeDomains], the key name of the first operation has to be
    that string followed by [" auth"], which is then the matched home
    domain; with an array, the matched home domain is the first element [d]
    for which [d] followed by [" auth"] is the key name; without such an
    element the domain-mismatch error is thrown.  A challenge built for the
    home domain SDF is read against [["Test"; "SDF"; "Other"]] with SDF as
    matched home domain, and against [["Test"; "Other"]] the domain-mismatch
    error is thrown. *)
Theorem readChallengeTx_homeDomains :
  let mismatch :=
    Err (InvalidSep10ChallengeError
      "Invalid homeDomains: the transaction's operation key name does not match the expected home domain") in
  (* what a challenge that is read has matched *)
  (forall challengeTx serverAccountID networkPassphrase homeDomains now read,
     readChallengeTx challengeTx serverAccountID networkPassphrase
       homeDomains now = OK read ->
     exists operation subsequentOperations,
       tx_operations (tx read) = operation :: subsequentOperations
       /\ match homeDomains with
          | hd_string homeDomain =>
              op_name operation = homeDomain +++ " auth"
              /\ matchedHomeDomain read = homeDomain
          | hd_array domains =>
              exists before after,
                domains = before ++ matchedHomeDomain read :: after
                /\ op_name operation = matchedHomeDomain read +++ " auth"
                /\ (forall d, In d before ->
                               op_name operation <> d +++ " auth")
          | hd_other _ _ => False
          end)
  (* what is read, and what is refused, past the earlier checks *)
  /\
  (forall challengeTx serverAccountID networkPassphrase now
          transaction operation subsequentOperations client,
     StructureChecked challengeTx serverAccountID networkPassphrase
       transaction operation subsequentOperations client ->
     TimeboundsChecked transaction now ->
     let read_with homeDomains :=
       readChallengeTx challengeTx serverAccountID networkPassphrase
         homeDomains now in
     let read_as domain :=
       OK {| tx := transaction;
             clientAccountID := client;
             matchedHomeDomain := domain |} in
     (* a string *)
     (forall homeDomain,
        homeDomain <> EmptyString ->
        (op_name operation = homeDomain +++ " auth" ->
         check_subsequentOperations serverAccountID subsequentOperations
         = OK tt ->
         read_with (hd_string homeDomain) = read_as homeDomain)
        /\ (op_name operation <> homeDomain +++ " auth" ->
            read_with (hd_string homeDomain) = mismatch))
     (* an array: the first element that matches *)
     /\ (forall before domain after,
           (forall d, In d before -> op_name operation <> d +++ " auth") ->
           op_name operation = domain +++ " auth" ->
           domain <> EmptyString ->
           check_subsequentOperations serverAccountID subsequentOperations
           = OK tt ->
           read_with (hd_array (before ++ domain :: after)) = read_as domain)
     (* an array without a match *)
     /\ (forall domains,
           (forall d, In d domains -> op_name operation <> d +++ " auth") ->
           read_with (hd_array domains) = mismatch))
  (* the challenge built for SDF *)
  /\ (forall serverKeypair client timeout networkPassphrase now value
             challengeTx later,
        buildChallengeTx serverKeypair client "SDF" timeout networkPassphrase
          now value = OK challengeTx ->
        client <> EmptyString ->
        now + timeout <> TimeoutInfinite ->
        now <= later <= now + timeout ->
        readChallengeTx challengeTx (publicKey serverKeypair)
          networkPassphrase (hd_array ["Test"; "SDF"; "Other"]) later
        = OK {| tx := built_transaction serverKeypair client "SDF" timeout
                     networkPassphrase now value;
                clientAccountID := client;
                matchedHomeDomain := "SDF" |}
        /\ readChallengeTx challengeTx (publicKey serverKeypair)
             networkPassphrase (hd_array ["Test"; "Other"]) later
           = mismatch).
Proof.
  intros mismatch.
  assert (Hgeneral :
    forall challengeTx serverAccountID networkPassphrase now
           transaction operation subsequentOperations client domains,
      StructureChecked challengeTx serverAccountID networkPassphrase
        transaction operation subsequentOperations client ->
      TimeboundsChecked transaction now ->
      (forall d, In d domains -> op_name operation <> d +++ " auth") ->
      readChallengeTx challengeTx serverAccountID networkPassphrase
        (hd_array domains) now = mismatch).
  { intros c s p now transaction operation rest client domains
      Hstructure (tb & Htb & Hinf & Hin) Hnone.
    rewrite (readChallengeTx_from_timebounds _ _ _ _ _ _ _ _ _ Hstructure).
    rewrite Htb. apply Z.eqb_neq in Hinf. rewrite Hinf.
    assert (Hvalid : validateTimebounds transaction now = true).
    { apply validateTimebounds_true. now exists tb. }
    rewrite Hvalid. cbn [negb falsy_homeDomains bind].
    now rewrite (find_homeDomain_none _ _ Hnone). }
  split; [|split].
  - intros c s p homeDomains now read Hread.
    destruct (readChallengeTx_inv _ _ _ _ _ _ Hread)
      as (operation & rest & Hstructure & _ & (_ & Hmatch) & _).
    exists operation, rest. split; [apply Hstructure|].
    destruct homeDomains as [homeDomain|domains|js_typeof truthy].
    + destruct Hmatch as [<- Hname]. now split.
    + now apply find_homeDomain_Some.
    + contradiction.
  - intros c s p now transaction operation rest client Hstructure Htime
      read_with read_as.
    split; [|split].
    + intros homeDomain Hdomain. split.
      * intros Hname Hrest. unfold read_with, read_as.
        apply (readChallengeTx_intro _ _ _ _ _ _ _ _ _ _ Hstructure Htime);
          [|assumption].
        split; [assumption|now split].
      * intros Hname. unfold read_with.
        rewrite (readChallengeTx_from_timebounds _ _ _ _ _ _ _ _ _ Hstructure).
        destruct Htime as (tb & Htb & Hinf & Hin).
        rewrite Htb. apply Z.eqb_neq in Hinf. rewrite Hinf.
        assert (Hvalid : validateTimebounds transaction now = true).
        { apply validateTimebounds_true. now exists tb. }
        rewrite Hvalid. cbn [negb falsy_homeDomains].
        apply String.eqb_neq in Hdomain. rewrite Hdomain.
        assert (E : String.eqb (homeDomain +++ " auth") (op_name operation)
                    = false).
        { apply String.eqb_neq. congruence. }
        rewrite E. reflexivity.
    + intros before domain after Hbefore Hname Hdomain Hrest.
      unfold read_with, read_as.
      apply (readChallengeTx_intro _ _ _ _ _ _ _ _ _ _ Hstructure Htime);
        [|assumption].
      split; [assumption|]. now apply find_homeDomain_first.
    + intros domains Hnone. unfold read_with.
      now apply (Hgeneral _ _ _ _ _ _ _ _ _ Hstructure Htime).
  - intros kp client timeout p now value c later Hbuild Hclient Hfinite Hlater.
    assert (Hstructure := buildChallengeTx_checked _ _ _ _ _ _ _ _
                            Hbuild Hclient eq_refl).
    assert (Htime : TimeboundsChecked
                      (built_transaction kp client "SDF" timeout p now value)
                      later).
    { exists {| minTime := now; maxTime := now + timeout |}.
      repeat split; try assumption; apply Hlater. }
    split.
    + apply (readChallengeTx_intro _ _ _ _ _ _ _ _ _ _ Hstructure Htime);
        [|reflexivity].
      split; [discriminate|reflexivity].
    + apply (Hgeneral _ _ _ _ _ _ _ _ _ Hstructure Htime).
      simpl. intros d [<-|[<-|[]]]; discriminate.
Qed.

End BuildAndRead.

(* ================================================================== *)
(** * The theorems on the samples *)

(** Witness of C5. *)
Lemma gatherTxSigners_unsigned_witness :
  (signatures (IsTransaction unsignedChallenge) = []
   /\ [Samples.clientAddress; Samples.signerAddress] <> [])
  /\ gatherTxSigners (sdk := Toy.sdk) (IsTransaction unsignedChallenge)
       [Samples.clientAddress; Samples.signerAddress] = OK [].
Proof.
  split; [split; [reflexivity|discriminate]|].
  apply (gatherTxSigners_unsigned (sdk := Toy.sdk)
           (IsTransaction unsignedChallenge)
           [Samples.clientAddress; Samples.signerAddress]);
    [reflexivity|discriminate].
Defined.

(** Counterexample to C4 as stated: the only candidate is no address, the
    transaction is unsigned, and [gatherTxSigners] returns the empty list
    without looking at the candidate. *)
Lemma gatherTxSigners_malformed_candidate_skipped :
  fromPublicKey (BaseSdk := Toy.sdk) Samples.preauthTxHash
  = inl "Invalid AiBlocks public key"
  /\ gatherTxSigners (sdk := Toy.sdk) (IsTransaction unsignedChallenge)
       [Samples.preauthTxHash] = OK [].
Proof. split; reflexivity. Qed.

(** Witness of C4 as amended, on the challenge that carries the signature
    of a stranger only: behind the signer, who has not signed, the malformed
    candidate makes [gatherTxSigners] throw. *)
Lemma gatherTxSigners_malformed_candidate_witness :
  gatherTxSigners (sdk := Toy.sdk)
    (IsTransaction (Samples.sign_all [Samples.strangerKP] unsignedChallenge))
    [Samples.signerAddress; Samples.preauthTxHash; Samples.clientAddress]
  = Err (InvalidSep10ChallengeError
           ("Signer is not a valid address: "
            +++ "Invalid AiBlocks public key")).
Proof.
  destruct (gatherTxSigners_malformed_candidate (sdk := Toy.sdk)
              (IsTransaction
                 (Samples.sign_all [Samples.strangerKP] unsignedChallenge))
              [Samples.signerAddress; Samples.preauthTxHash;
               Samples.clientAddress]) as (Hfirst & _).
  destruct (Hfirst [Samples.signerAddress] Samples.preauthTxHash
              [Samples.clientAddress] "Invalid AiBlocks public key")
    as (Hthrows & _ & _).
  - reflexivity.
  - constructor; [|constructor]. now exists Samples.signerKP.
  - reflexivity.
  - apply Hthrows. vm_compute. discriminate.
Defined.


(** Counterexample to C7 as stated: on the challenge that carries the
    server's signature only, [verifyChallengeTxSigners] skips the
    pre-authorized transaction hash, and so does [gatherTxSigners], which
    has no signature left when it comes to it and returns without an
    error. *)
Lemma gatherTxSigners_ignores_unverifiable_too :
  String.eqb (charAt0 Samples.preauthTxHash) "G" = false
  /\ verifyChallengeTxSigners (sdk := Toy.sdk) challenge_server
       Samples.serverAddress Samples.TESTNET
       [Samples.serverAddress; Samples.preauthTxHash] (hd_string "SDF") 1100
     = Err (InvalidSep10ChallengeError
         "No verifiable client signers provided, at least one G... address must be provided")
  /\ gatherTxSigners (sdk := Toy.sdk)
       (IsTransaction (tx (sample_read challenge_server)))
       [Samples.serverAddress; Samples.preauthTxHash]
     = OK [Samples.serverAddress].
Proof. repeat split; vm_compute; reflexivity. Qed.

(** Witness of C7 as amended, on the challenge signed by the server and the
    client: the pre-authorized transaction hash is skipped by
    [verifyChallengeTxSigners]; [gatherTxSigners] throws on it in front of
    the client and behind the server, and skips it behind the server and
    the client. *)
Lemma verifyChallengeTxSigners_ignores_unverifiable_witness :
  verifyChallengeTxSigners (sdk := Toy.sdk) challenge_client
    Samples.serverAddress Samples.TESTNET
    [Samples.preauthTxHash; Samples.serverAddress] (hd_string "SDF") 1100
  = Err (InvalidSep10ChallengeError
      "No verifiable client signers provided, at least one G... address must be provided")
  /\ (exists message,
        fromPublicKey (BaseSdk := Toy.sdk) Samples.preauthTxHash = inl message
        /\ gatherTxSigners (sdk := Toy.sdk)
             (IsTransaction (tx (sample_read challenge_client)))
             [Samples.preauthTxHash; Samples.clientAddress]
           = Err (InvalidSep10ChallengeError
                    ("Signer is not a valid address: " +++ message)))
  /\ gatherTxSigners (sdk := Toy.sdk)
       (IsTransaction (tx (sample_read challenge_client)))
       ([Samples.serverAddress] ++ Samples.preauthTxHash :: [])
     = Err (InvalidSep10ChallengeError
              ("Signer is not a valid address: "
               +++ "Invalid AiBlocks public key"))
  /\ gatherTxSigners (sdk := Toy.sdk)
       (IsTransaction (tx (sample_read challenge_client)))
       ([Samples.serverAddress; Samples.clientAddress]
        ++ Samples.preauthTxHash :: [])
     = gatherTxSigners (sdk := Toy.sdk)
         (IsTransaction (tx (sample_read challenge_client)))
         [Samples.serverAddress; Samples.clientAddress].
Proof.
  destruct (verifyChallengeTxSigners_ignores_unverifiable (sdk := Toy.sdk)
              challenge_client Samples.serverAddress Samples.TESTNET
              [Samples.preauthTxHash; Samples.serverAddress]
              (hd_string "SDF") 1100) as (_ & Hnone & Hhard & Hreached).
  split; [|split; [|split]].
  - apply (Hnone (sample_read challenge_client) Samples.serverKP);
      vm_compute; reflexivity.
  - apply Hhard; [reflexivity|vm_compute; discriminate].
  - destruct (Hreached (IsTransaction (tx (sample_read challenge_client)))
                [Samples.serverAddress] Samples.preauthTxHash [])
      as (message & Hmessage & Hthrows & _).
    + reflexivity.
    + constructor; [|constructor]. now exists Samples.serverKP.
    + injection Hmessage as <-. apply Hthrows. vm_compute. discriminate.
  - destruct (Hreached (IsTransaction (tx (sample_read challenge_client)))
                [Samples.serverAddress; Samples.clientAddress]
                Samples.preauthTxHash [])
      as (message & _ & _ & Hskips).
    + reflexivity.
    + constructor; [now exists Samples.serverKP|].
      constructor; [now exists Samples.clientKP|constructor].
    + apply Hskips. vm_compute. reflexivity.
Defined.

(** Counterexample to C1 as stated: the home domain has a letter with an
    accent.  [buildChallengeTx] returns a challenge for it, the base package
    decodes the key name of that challenge as ASCII, and [readChallengeTx],
    given the same home domain within the time bounds, throws the
    domain-mismatch error. *)
Lemma buildChallengeTx_readChallengeTx_refused :
  ascii_only Samples.accentedDomain = false
  /\ exists challengeTx,
       buildChallengeTx (sdk := Toy.sdk) Samples.serverKP
         Samples.clientAddress Samples.accentedDomain 300 Samples.TESTNET
         1000 "nonce" = OK challengeTx
       /\ readChallengeTx (sdk := Toy.sdk) challengeTx Samples.serverAddress
            Samples.TESTNET (hd_string Samples.accentedDomain) 1100
          = Err (InvalidSep10ChallengeError
              "Invalid homeDomains: the transaction's operation key name does not match the expected home domain").
Proof.
  split; [reflexivity|].
  eexists. split; [reflexivity|vm_compute; reflexivity].
Qed.

(** Witness of C1 as amended. *)
Lemma buildChallengeTx_readChallengeTx_witness :
  (buildChallengeTx (sdk := Toy.sdk) Samples.serverKP Samples.clientAddress
     "SDF" 300 Samples.TESTNET 1000 "nonce" = OK challenge_server
   /\ Samples.clientAddress <> EmptyString
   /\ "SDF" <> EmptyString
   /\ 1000 + 300 <> TimeoutInfinite (BaseSdk := Toy.sdk)
   /\ 1000 <= 1100 <= 1000 + 300
   /\ ascii_only "SDF" = true)
  /\ readChallengeTx (sdk := Toy.sdk) challenge_server
       (publicKey (BaseSdk := Toy.sdk) Samples.serverKP) Samples.TESTNET
       (hd_string "SDF") 1100
     = OK {| tx := built_transaction (sdk := Toy.sdk) Samples.serverKP
                  Samples.clientAddress "SDF" 300 Samples.TESTNET 1000 "nonce";
             clientAccountID := Samples.clientAddress;
             matchedHomeDomain := "SDF" |}.
Proof.
  assert (Hbuild : buildChallengeTx (sdk := Toy.sdk) Samples.serverKP
                     Samples.clientAddress "SDF" 300 Samples.TESTNET 1000
                     "nonce" = OK challenge_server).
  { vm_compute. reflexivity. }
  assert (Hclient : Samples.clientAddress <> EmptyString) by discriminate.
  assert (Hdomain : "SDF" <> EmptyString) by discriminate.
  assert (Hfinite : 1000 + 300 <> TimeoutInfinite (BaseSdk := Toy.sdk))
    by discriminate.
  assert (Hlater : 1000 <= 1100 <= 1000 + 300) by lia.
  split; [repeat split; try assumption; apply Hlater|].
  destruct (buildChallengeTx_readChallengeTx (sdk := Toy.sdk) _ _ _ _ _ _ _ _ _
              Hbuild Hclient Hdomain Hfinite Hlater) as (Hascii & _ & _).
  apply Hascii. reflexivity.
Defined.



(** The duplicate of the witness decides the outcome: with the threshold 3
    the client's signature is not enough. *)
Example verifyChallengeTxThreshold_duplicate_run :
  verifyChallengeTxThreshold (sdk := Toy.sdk) challenge_client
    Samples.serverAddress Samples.TESTNET 3 summary_duplicate
    (hd_string "SDF") 1100
  = Err (InvalidSep10ChallengeError
           ("signers with weight 1 do not meet threshold 3" +++ dquote)).
Proof. vm_compute. reflexivity. Qed.

(** Counterexample to C6 as stated: [readChallengeTx] returns a challenge
    whose first operation has a multiplexed address as source, with that
    address as client account ID. *)
Lemma readChallengeTx_accepts_multiplexed_client :
  startsWith Samples.muxedAddress "M" = true
  /\ exists transaction,
       readChallengeTx (sdk := Toy.sdk) challenge_muxed Samples.serverAddress
         Samples.TESTNET (hd_string "SDF") 1100
       = OK {| tx := transaction;
               clientAccountID := Samples.muxedAddress;
               matchedHomeDomain := "SDF" |}.
Proof.
  split; [reflexivity|]. eexists. vm_compute. reflexivity.
Qed.

(** Witness of C6 as amended. *)
Lemma multiplexed_accounts_rejected_first_witness :
  buildChallengeTx (sdk := Toy.sdk) Samples.serverKP Samples.muxedAddress
    "SDF" 300 Samples.TESTNET 1000 "nonce"
  = Err (JsError
      "Invalid clientAccountID: multiplexed accounts are not supported.")
  /\ readChallengeTx (sdk := Toy.sdk) "avalidtx" Samples.muxedAddress
       Samples.TESTNET (hd_string "SDF") 1100
     = Err (JsError
         "Invalid serverAccountID: multiplexed accounts are not supported.").
Proof.
  destruct (multiplexed_accounts_rejected_first (sdk := Toy.sdk))
    as (Hbuild & Hread & _ & _).
  split; [apply Hbuild|apply Hread]; reflexivity.
Defined.

(** Witness of C8: the challenge valid from 1000 to 1300 is read at 1300
    and has expired at 1301; the challenge without time bounds has
    expired. *)
Lemma readChallengeTx_expiry_witness :
  (readChallengeTx (sdk := Toy.sdk) challenge_server Samples.serverAddress
     Samples.TESTNET (hd_string "SDF") 1300
   = OK (sample_read challenge_server)
   /\ readChallengeTx (sdk := Toy.sdk) challenge_server Samples.serverAddress
        Samples.TESTNET (hd_string "SDF") (1300 + 1)
      = Err (InvalidSep10ChallengeError "The transaction has expired"))
  /\ readChallengeTx (sdk := Toy.sdk) challenge_unbounded
       Samples.serverAddress Samples.TESTNET (hd_string "SDF") 1100
     = Err (InvalidSep10ChallengeError "The transaction has expired").
Proof.
  split.
  - assert (Hbuild : buildChallengeTx (sdk := Toy.sdk) Samples.serverKP
                       Samples.clientAddress "SDF" 300 Samples.TESTNET 1000
                       "nonce" = OK challenge_server).
    { vm_compute. reflexivity. }
    assert (Hclient : Samples.clientAddress <> EmptyString) by discriminate.
    assert (Hstructure := buildChallengeTx_checked (sdk := Toy.sdk)
                            _ _ _ _ _ _ _ _ Hbuild Hclient eq_refl).
    destruct (readChallengeTx_expiry (sdk := Toy.sdk) _ _ _ (hd_string "SDF")
                _ _ _ _ Hstructure) as (_ & _ & Hboundary).
    + intros tb [= <-]. discriminate.
    + apply (Hboundary {| minTime := 1000; maxTime := 1000 + 300 |} 1100
               (sample_read challenge_server)).
      * reflexivity.
      * vm_compute. reflexivity.
  - assert (Hstructure :
      StructureChecked (sdk := Toy.sdk) challenge_unbounded
        Samples.serverAddress Samples.TESTNET unbounded_transaction
        (Operation_manageData "SDF auth" "nonce" Samples.clientAddress) []
        Samples.clientAddress).
    { constructor; vm_compute; reflexivity. }
    destruct (readChallengeTx_expiry (sdk := Toy.sdk) _ _ _ (hd_string "SDF")
                _ _ _ _ Hstructure) as (_ & Hmissing & _).
    + intros tb H. discriminate H.
    + apply Hmissing. reflexivity.
Defined.

(** Witness of C9: the challenge built for SDF, read against two arrays of
    home domains. *)
Lemma readChallengeTx_homeDomains_witness :
  readChallengeTx (sdk := Toy.sdk) challenge_server
    (publicKey (BaseSdk := Toy.sdk) Samples.serverKP) Samples.TESTNET
    (hd_array ["Test"; "SDF"; "Other"]) 1100
  = OK {| tx := built_transaction (sdk := Toy.sdk) Samples.serverKP
               Samples.clientAddress "SDF" 300 Samples.TESTNET 1000 "nonce";
          clientAccountID := Samples.clientAddress;
          matchedHomeDomain := "SDF" |}
  /\ readChallengeTx (sdk := Toy.sdk) challenge_server
       (publicKey (BaseSdk := Toy.sdk) Samples.serverKP) Samples.TESTNET
       (hd_array ["Test"; "Other"]) 1100
     = Err (InvalidSep10ChallengeError
         "Invalid homeDomains: the transaction's operation key name does not match the expected home domain").
Proof.
  destruct (readChallengeTx_homeDomains (sdk := Toy.sdk))
    as (_ & _ & Hscenario).
  apply (Hscenario Samples.serverKP Samples.clientAddress 300
           Samples.TESTNET 1000 "nonce" challenge_server 1100).
  - vm_compute. reflexivity.
  - discriminate.
  - discriminate.
  - lia.
Defined.

(* ================================================================== *)
(** * Further properties of [gatherTxSigners] and [verifyTxSignedBy] *)

Section GatherMore.

Context {sdk : BaseSdk}.

Lemma match_signature_Some kp h pool pool' :
  match_signature kp h pool = Some pool' ->
  (exists d, In d pool /\ matches kp h d = true) /\ incl pool' pool.
Proof.
  unfold matches.
  revert pool'. induction pool as [|e pool IH]; simpl; intros pool' H.
  - discriminate.
  - destruct (Buffer_equals (hint e) (signatureHint kp)) eqn:Eh; simpl in H.
    + destruct (verify kp h (signature e)) eqn:Ev.
      * injection H as <-. split.
        -- exists e. split; [now left|]. now rewrite Eh, Ev.
        -- intros x Hx. now right.
      * destruct (match_signature kp h pool) as [q|]; [|discriminate].
        injection H as <-. destruct (IH q eq_refl) as ((d & Hd & Hm) & Hq).
        split; [exists d; split; [now right|assumption]|].
        intros x [<-|Hx]; [now left|right; now apply Hq].
    + destruct (match_signature kp h pool) as [q|]; [|discriminate].
      injection H as <-. destruct (IH q eq_refl) as ((d & Hd & Hm) & Hq).
      split; [exists d; split; [now right|assumption]|].
      intros x [<-|Hx]; [now left|right; now apply Hq].
Qed.

Lemma match_signature_None kp h pool d :
  match_signature kp h pool = None -> In d pool -> matches kp h d = false.
Proof.
  unfold matches. induction pool as [|e pool IH]; simpl; intros H Hd.
  - contradiction.
  - destruct (Buffer_equals (hint e) (signatureHint kp)) eqn:Eh; simpl in H.
    + destruct (verify kp h (signature e)) eqn:Ev; [discriminate|].
      destruct (match_signature kp h pool) as [q|]; [discriminate|].
      destruct Hd as [<-|Hd]; [now rewrite Eh, Ev|now apply IH].
    + destruct (match_signature kp h pool) as [q|]; [discriminate|].
      destruct Hd as [<-|Hd]; [now rewrite Eh|now apply IH].
Qed.

(** What the loop keeps: the signers found so far stay found, without
    repetition; the pool only shrinks; a signer that is added is a
    candidate whose key matches a signature of the pool; and every signer
    added has taken a signature out of the pool. *)
Lemma gather_loop_invariant h signers pool found found' pool' :
  gather_loop h signers pool found = OK (found', pool') ->
  incl found found'
  /\ incl pool' pool
  /\ (NoDup found -> NoDup found')
  /\ (forall s, In s found' ->
        In s found
        \/ (In s signers
            /\ exists kp d, fromPublicKey s = inr kp /\ In d pool
                            /\ matches kp h d = true))
  /\ (List.length found' + List.length pool'
      <= List.length found + List.length pool)%nat.
Proof.
  revert pool found. induction signers as [|signer signers IH];
    intros pool found Hg.
  - simpl in Hg. injection Hg as <- <-.
    repeat split; auto using incl_refl.
  - simpl in Hg. destruct pool as [|e pool].
    + injection Hg as <- <-. repeat split; auto using incl_refl.
    + destruct (fromPublicKey signer) as [msg|kp] eqn:Hkp; [discriminate|].
      destruct (match_signature kp h (e :: pool)) as [q|] eqn:Hm.
      * destruct (match_signature_Some _ _ _ _ Hm) as ((d & Hd & Hmd) & Hq).
        assert (Hlen := match_signature_length _ _ _ _ Hm).
        destruct (IH _ _ Hg) as (H1 & H2 & H3 & H4 & H5).
        split; [|split; [|split; [|split]]].
        -- intros x Hx. apply H1. apply Set_add_In. now right.
        -- intros x Hx. apply Hq. now apply H2.
        -- intros Hnd. apply H3. now apply Set_add_NoDup.
        -- intros s Hs. destruct (H4 s Hs) as [Hin|(Hin & k & d' & Hk & Hd' & Hmd')].
           ++ apply Set_add_In in Hin. destruct Hin as [->|Hin]; [|now left].
              right. split; [now left|]. now exists kp, d.
           ++ right. split; [now right|]. exists k, d'.
              repeat split; try assumption. now apply Hq.
        -- assert (List.length (Set_add signer found) <= S (List.length found))%nat.
           { unfold Set_add. destruct (existsb _ found); [lia|].
             rewrite length_app. simpl. lia. }
           lia.
      * destruct (IH _ _ Hg) as (H1 & H2 & H3 & H4 & H5).
        split; [|split; [|split; [|split]]]; try assumption.
        intros s Hs. destruct (H4 s Hs) as [Hin|(Hin & k & d' & Hk & Hd' & Hmd')].
        -- now left.
        -- right. split; [now right|]. now exists k, d'.
Qed.

(** X1.  The list that [gatherTxSigners] returns has no repeated signer,
    also when a candidate is listed several times or has signed several
    times, and it is never longer than the list of signatures of the
    transaction. *)
Theorem gatherTxSigners_no_repetition
    (transaction : AnyTransaction) (signers found : list string) :
  gatherTxSigners transaction signers = OK found ->
  NoDup found
  /\ (List.length found <= List.length (signatures transaction))%nat.
Proof.
  unfold gatherTxSigners.
  destruct (gather_loop _ _ _ _) as [[f p]|e] eqn:Hg; [|discriminate].
  intros [= <-]. simpl.
  destruct (gather_loop_invariant _ _ _ _ _ _ Hg) as (_ & _ & H3 & _ & H5).
  split; [apply H3; constructor|simpl in H5; lia].
Qed.

(** X2.  Every signer that [gatherTxSigners] returns is one of the
    candidates, parses as a public key, and the transaction carries a
    signature with the hint of that key which the key verifies against the
    hash of the transaction. *)
Theorem gatherTxSigners_sound
    (transaction : AnyTransaction) (signers found : list string) (s : string) :
  gatherTxSigners transaction signers = OK found ->
  In s found ->
  In s signers
  /\ exists keypair decSig,
       fromPublicKey s = inr keypair
       /\ In decSig (signatures transaction)
       /\ Buffer_equals (hint decSig) (signatureHint keypair) = true
       /\ verify keypair (hash transaction) (signature decSig) = true.
Proof.
  unfold gatherTxSigners.
  destruct (gather_loop _ _ _ _) as [[f p]|e] eqn:Hg; [|discriminate].
  intros [= <-] Hs. simpl in Hs.
  destruct (gather_loop_invariant _ _ _ _ _ _ Hg) as (_ & _ & _ & H4 & _).
  destruct (H4 s Hs) as [[]|(Hin & kp & d & Hkp & Hd & Hm)].
  split; [assumption|]. exists kp, d. unfold matches in Hm.
  apply andb_prop in Hm. tauto.
Qed.

(** X3.  When [gatherTxSigners] returns, it has found every candidate whose
    key matches a signature of the transaction that no candidate listed
    before it matches. *)
Theorem gatherTxSigners_complete
    (transaction : AnyTransaction) (before : list string) (s : string)
    (after found : list string) (keypair : Keypair)
    (decSig : DecoratedSignature) :
  gatherTxSigners transaction (before ++ s :: after) = OK found ->
  fromPublicKey s = inr keypair ->
  In decSig (signatures transaction) ->
  matches keypair (hash transaction) decSig = true ->
  (forall s' keypair', In s' before -> fromPublicKey s' = inr keypair' ->
     matches keypair' (hash transaction) decSig = false) ->
  In s found.
Proof.
  unfold gatherTxSigners. rewrite gather_loop_app.
  destruct (gather_loop (hash transaction) before (signatures transaction) [])
    as [[f1 p1]|e] eqn:Hg1; [|discriminate].
  cbn [bind fst snd].
  destruct (gather_loop _ (s :: after) p1 f1) as [[f p]|e] eqn:Hg2;
    [|discriminate].
  intros [= <-] Hkp Hd Hm Hbefore. simpl.
  assert (Hd1 : In decSig p1).
  { apply (gather_loop_keeps _ _ _ _ _ _ decSig Hbefore Hd Hg1). }
  simpl in Hg2. destruct p1 as [|e1 p1]; [contradiction|].
  rewrite Hkp in Hg2.
  destruct (match_signature keypair (hash transaction) (e1 :: p1)) as [q|] eqn:Hq.
  - destruct (gather_loop_invariant _ _ _ _ _ _ Hg2) as (H1 & _).
    apply H1. apply Set_add_In. now left.
  - rewrite (match_signature_None _ _ _ _ Hq Hd1) in Hm. discriminate.
Qed.

(** With candidates that are pairwise distinct and not yet found, the
    signers are added in the order of the candidates. *)
Lemma gather_loop_order h signers pool found found' pool' :
  NoDup signers ->
  (forall s, In s signers -> ~ In s found) ->
  gather_loop h signers pool found = OK (found', pool') ->
  found' = found ++ filter (fun s => existsb (String.eqb s) found') signers.
Proof.
  intros Hnd. revert pool found.
  induction Hnd as [|signer signers Hnotin Hnd IH]; intros pool found Hfresh Hg.
  - simpl in Hg. injection Hg as <- <-. simpl. now rewrite app_nil_r.
  - assert (Hnone : forall l, (forall s, In s l -> ~ In s found) ->
                              filter (fun s => existsb (String.eqb s) found) l
                              = []).
    { induction l as [|x l IHl]; intros Hl; [reflexivity|]. simpl.
      destruct (existsb (String.eqb x) found) eqn:E.
      - apply existsb_eqb_In in E. elim (Hl x); [now left|assumption].
      - apply IHl. intros s Hs. apply Hl. now right. }
    simpl in Hg. destruct pool as [|d pool].
    + injection Hg as <- <-. rewrite (Hnone _ Hfresh). now rewrite app_nil_r.
    + destruct (fromPublicKey signer) as [msg|kp]; [discriminate|].
      destruct (match_signature kp h (d :: pool)) as [q|] eqn:Hm.
      * rewrite Set_add_fresh in Hg by (apply Hfresh; now left).
        assert (Hin : In signer found').
        { destruct (gather_loop_invariant _ _ _ _ _ _ Hg) as (H1 & _).
          apply H1. rewrite in_app_iff. right. now left. }
        apply IH in Hg.
        -- simpl. apply existsb_eqb_In in Hin. rewrite Hin.
           rewrite <- app_assoc in Hg. exact Hg.
        -- intros s Hs. rewrite in_app_iff. simpl.
           intros [H|[H|[]]].
           ++ apply (Hfresh s); [now right|assumption].
           ++ subst s. contradiction.
      * apply IH in Hg; [|intros s Hs; apply Hfresh; now right].
        simpl. destruct (existsb (String.eqb signer) found') eqn:E;
          [|exact Hg].
        apply existsb_eqb_In in E. rewrite Hg in E.
        apply in_app_iff in E. destruct E as [E|E].
        -- elim (Hfresh signer); [now left|assumption].
        -- apply filter_In in E. destruct E as [E _]. contradiction.
Qed.

(** X4.  For candidates that are pairwise distinct, [gatherTxSigners]
    returns the signers it found in the order in which the candidates were
    given: the result is the candidate list, restricted to the signers
    found. *)
Theorem gatherTxSigners_order
    (transaction : AnyTransaction) (signers found : list string) :
  NoDup signers ->
  gatherTxSigners transaction signers = OK found ->
  found = filter (fun s => existsb (String.eqb s) found) signers.
Proof.
  intros Hnd. unfold gatherTxSigners.
  destruct (gather_loop _ _ _ _) as [[f p]|e] eqn:Hg; [|discriminate].
  intros [= <-]. simpl.
  apply (gather_loop_order _ _ _ _ _ _ Hnd) in Hg; [|intros s _ []].
  exact Hg.
Qed.

(** X5.  [verifyTxSignedBy] returns [true] exactly when the account ID
    parses as a public key and the transaction carries a signature that this
    key matches; on a transaction without signatures it returns [false] for
    every account ID, also for one that is no public key. *)
Theorem verifyTxSignedBy_spec
    (transaction : AnyTransaction) (accountID : string) :
  (verifyTxSignedBy transaction accountID = OK true
   <-> exists keypair decSig,
         fromPublicKey accountID = inr keypair
         /\ In decSig (signatures transaction)
         /\ matches keypair (hash transaction) decSig = true)
  /\ (signatures transaction = [] ->
      verifyTxSignedBy transaction accountID = OK false).
Proof.
  unfold verifyTxSignedBy, gatherTxSigners. simpl gather_loop. split.
  - destruct (signatures transaction) as [|e pool] eqn:Hsig.
    + simpl. split; [discriminate|]. intros (kp & d & _ & [] & _).
    + destruct (fromPublicKey accountID) as [msg|kp] eqn:Hkp.
      * simpl. split; [discriminate|]. intros (k & d & Hk & _). discriminate.
      * destruct (match_signature kp (hash transaction) (e :: pool))
          as [q|] eqn:Hm.
        -- simpl. split; [|reflexivity].
           intros _. destruct (match_signature_Some _ _ _ _ Hm)
             as ((d & Hd & Hmd) & _). now exists kp, d.
        -- simpl. split; [discriminate|].
           intros (k & d & Hk & Hd & Hmd). injection Hk as <-.
           rewrite (match_signature_None _ _ _ _ Hm Hd) in Hmd. discriminate.
  - intros ->. reflexivity.
Qed.

End GatherMore.

(* ================================================================== *)
(** * Further properties of the two verifiers *)

Lemma splice_indexOf_NoDup (x : string) (l : list string) :
  NoDup l ->
  NoDup (splice_indexOf x l)
  /\ (forall y, In y (splice_indexOf x l) <-> In y l /\ y <> x)
  /\ (In x l -> S (List.length (splice_indexOf x l)) = List.length l).
Proof.
  induction 1 as [|a l Ha Hnd IH]; simpl.
  - split; [constructor|]. split; [intros y; tauto|intros []].
  - destruct IH as (IH1 & IH2 & IH3).
    destruct (String.eqb x a) eqn:E.
    + apply String.eqb_eq in E. subst a.
      split; [assumption|]. split; [|reflexivity].
      intros y. split.
      * intros Hy. split; [now right|]. intros ->. contradiction.
      * intros [[<-|Hy] Hne]; [now elim Hne|assumption].
    + apply String.eqb_neq in E.
      split; [|split].
      * constructor; [|assumption]. rewrite IH2. tauto.
      * intros y. simpl. rewrite IH2. split.
        -- intros [<-|[Hy Hne]]; [split; [now left|congruence]|tauto].
        -- intros [[<-|Hy] Hne]; [now left|tauto].
      * intros [->|Hx]; [now elim E|]. simpl. now rewrite IH3.
Qed.

Lemma collect_clientSigners_In pk signers acc s :
  In s (collect_clientSigners pk signers acc)
  <-> In s acc \/ (In s signers /\ verifiable pk s = true).
Proof.
  revert acc. induction signers as [|x signers IH]; intros acc; simpl.
  - tauto.
  - unfold verifiable in *.
    destruct (String.eqb x pk) eqn:Ex; simpl.
    + rewrite IH. split; [tauto|].
      intros [H|[[<-|H] Hv]]; [tauto| |tauto].
      rewrite Ex in Hv. discriminate.
    + destruct (String.eqb (charAt0 x) "G") eqn:Eg; simpl.
      * rewrite IH, Set_add_In. split.
        -- intros [[->|H]|H]; [|tauto|tauto].
           right. split; [now left|]. now rewrite Ex, Eg.
        -- intros [H|[[<-|H] Hv]]; tauto.
      * rewrite IH. split; [tauto|].
        intros [H|[[<-|H] Hv]]; [tauto| |tauto].
        rewrite Ex, Eg in Hv. discriminate.
Qed.

Lemma collect_clientSigners_app pk l1 l2 acc :
  collect_clientSigners pk (l1 ++ l2) acc
  = collect_clientSigners pk l2 (collect_clientSigners pk l1 acc).
Proof.
  revert acc. induction l1 as [|x l1 IH]; intros acc; simpl; [reflexivity|].
  destruct (String.eqb x pk); [apply IH|].
  destruct (negb (String.eqb (charAt0 x) "G")); apply IH.
Qed.

Lemma collect_clientSigners_known pk extra acc :
  (forall x, In x extra -> In x acc \/ verifiable pk x = false) ->
  collect_clientSigners pk extra acc = acc.
Proof.
  induction extra as [|x extra IH]; intros H; simpl; [reflexivity|].
  assert (Hrest : forall y, In y extra -> In y acc \/ verifiable pk y = false).
  { intros y Hy. apply H. now right. }
  destruct (H x (or_introl eq_refl)) as [Hx|Hx].
  - destruct (String.eqb x pk); [now apply IH|].
    destruct (negb (String.eqb (charAt0 x) "G")); [now apply IH|].
    unfold Set_add. apply existsb_eqb_In in Hx. rewrite Hx. now apply IH.
  - unfold verifiable in Hx.
    destruct (String.eqb x pk); [now apply IH|].
    simpl in Hx. rewrite Hx. simpl. now apply IH.
Qed.

Section VerifiersMore.

Context {sdk : BaseSdk}.

Lemma gatherTxSigners_candidates transaction signers found :
  gatherTxSigners transaction signers = OK found ->
  NoDup found /\ incl found signers.
Proof.
  unfold gatherTxSigners.
  destruct (gather_loop _ _ _ _) as [[f p]|e] eqn:Hl; [|discriminate].
  intros [= <-]. simpl.
  destruct (gather_loop_invariant _ _ _ _ _ _ Hl) as (_ & _ & H3 & H4 & _).
  split; [apply H3; constructor|].
  intros s Hs. destruct (H4 s Hs) as [[]|(Hc & _)]. exact Hc.
Qed.

(** What a successful [verifyChallengeTxSigners] has gone through. *)
Lemma verifyChallengeTxSigners_inv
    challengeTx serverAccountID networkPassphrase signers homeDomains now
    result :
  verifyChallengeTxSigners challengeTx serverAccountID networkPassphrase
    signers homeDomains now = OK result ->
  exists read serverKP found,
    readChallengeTx challengeTx serverAccountID networkPassphrase
      homeDomains now = OK read
    /\ fromPublicKey serverAccountID = inr serverKP
    /\ gatherTxSigners (IsTransaction (tx read)) (allSigners serverKP signers)
       = OK found
    /\ In serverAccountID found
    /\ List.length found <> 1%nat
    /\ List.length found = List.length (tx_signatures (tx read))
    /\ result = splice_indexOf serverAccountID found.
Proof.
  unfold verifyChallengeTxSigners.
  destruct (readChallengeTx challengeTx serverAccountID networkPassphrase
              homeDomains now) as [read|e] eqn:Hread; [|discriminate].
  cbn [bind].
  destruct (fromPublicKey serverAccountID) as [msg|serverKP] eqn:Hkey;
    [discriminate|].
  destruct (Nat.eqb _ 0); [discriminate|].
  fold (allSigners serverKP signers).
  destruct (gatherTxSigners (IsTransaction (tx read))
              (allSigners serverKP signers)) as [found|e] eqn:Hg;
    [|discriminate].
  cbn [bind]. unfold not_in_array.
  destruct (existsb (String.eqb (publicKey serverKP)) found) eqn:Hin;
    cbn [negb]; [|discriminate].
  destruct (Nat.eqb (List.length found) 1) eqn:Hone; [discriminate|].
  destruct (Nat.eqb (List.length found)
              (List.length (tx_signatures (tx read)))) eqn:Hall;
    cbn [negb]; [|discriminate].
  intros [= <-].
  rewrite (fromPublicKey_publicKey _ _ Hkey) in *.
  exists read, serverKP, found.
  apply existsb_eqb_In in Hin. apply Nat.eqb_neq in Hone.
  apply Nat.eqb_eq in Hall. repeat split; assumption.
Qed.

(** X6.  What [verifyChallengeTxSigners] returns has no repetition, is not
    empty, and does not contain the server's address, even if the server is
    among the candidates; each signer returned is one of the candidates and
    starts with G; and the transaction carries exactly one signature
    more than there are signers returned (the server's), hence at least
    two. *)
Theorem verifyChallengeTxSigners_result
    challengeTx serverAccountID networkPassphrase signers homeDomains now
    result :
  verifyChallengeTxSigners challengeTx serverAccountID networkPassphrase
    signers homeDomains now = OK result ->
  NoDup result
  /\ result <> []
  /\ ~ In serverAccountID result
  /\ (forall s, In s result -> In s signers /\ charAt0 s = "G")
  /\ exists read,
       readChallengeTx challengeTx serverAccountID networkPassphrase
         homeDomains now = OK read
       /\ List.length (tx_signatures (tx read)) = S (List.length result)
       /\ (2 <= List.length (tx_signatures (tx read)))%nat.
Proof.
  intros H. destruct (verifyChallengeTxSigners_inv _ _ _ _ _ _ _ H)
    as (read & serverKP & found & Hread & Hkey & Hg & Hin & Hone & Hall & ->).
  destruct (gatherTxSigners_candidates _ _ _ Hg) as (Hnd & Hcands).
  destruct (splice_indexOf_NoDup serverAccountID found Hnd)
    as (Hs1 & Hs2 & Hs3).
  specialize (Hs3 Hin).
  assert (Hne : splice_indexOf serverAccountID found <> []).
  { intros E. rewrite E in Hs3. simpl in Hs3. congruence. }
  split; [assumption|]. split; [assumption|].
  split; [rewrite Hs2; tauto|]. split.
  - intros s Hs. apply Hs2 in Hs. destruct Hs as [Hs Hneq].
    apply Hcands in Hs. unfold allSigners in Hs.
    rewrite (fromPublicKey_publicKey _ _ Hkey) in Hs.
    destruct Hs as [->|Hs]; [now elim Hneq|].
    apply collect_clientSigners_In in Hs.
    destruct Hs as [[]|[Hsig Hv]]. split; [assumption|].
    unfold verifiable in Hv. apply andb_prop in Hv.
    now apply String.eqb_eq.
  - exists read. split; [assumption|].
    assert (List.length (tx_signatures (tx read))
            = S (List.length (splice_indexOf serverAccountID found)))
      by congruence.
    split; [assumption|].
    destruct (splice_indexOf serverAccountID found); [now elim Hne|].
    simpl in *. lia.
Qed.

(** X7.  A challenge as [buildChallengeTx] returns it, which carries the
    signature of the server only, is accepted by neither verifier, whatever
    the server account, the candidates, the threshold, the home domains and
    the instant are. *)
Theorem built_challenge_not_verified
    serverKeypair client homeDomain timeout networkPassphrase now value
    challengeTx :
  buildChallengeTx serverKeypair client homeDomain timeout networkPassphrase
    now value = OK challengeTx ->
  (forall serverAccountID passphrase signers homeDomains later result,
     verifyChallengeTxSigners challengeTx serverAccountID passphrase signers
       homeDomains later <> OK result)
  /\ (forall serverAccountID passphrase threshold signerSummary homeDomains
             later result,
        verifyChallengeTxThreshold challengeTx serverAccountID passphrase
          threshold signerSummary homeDomains later <> OK result).
Proof.
  intros Hbuild.
  assert (Hsigners :
    forall serverAccountID passphrase signers homeDomains later result,
      verifyChallengeTxSigners challengeTx serverAccountID passphrase signers
        homeDomains later <> OK result).
  { intros server p signers hds later result H.
    destruct (verifyChallengeTxSigners_inv _ _ _ _ _ _ _ H)
      as (read & serverKP & found & Hread & _ & _ & _ & Hone & Hall & _).
    destruct (readChallengeTx_inv _ _ _ _ _ _ Hread)
      as (op & rest & [_ Hparse _ _ _ _ _] & _).
    unfold buildChallengeTx in Hbuild.
    destruct (startsWith client "M"); [discriminate|].
    rewrite (fromXDR_toXDR _ _ p Hbuild) in Hparse.
    injection Hparse as Htx. rewrite <- Htx in Hall. simpl in Hall.
    congruence. }
  split; [exact Hsigners|].
  intros server p threshold summary hds later result H.
  unfold verifyChallengeTxThreshold in H.
  destruct (verifyChallengeTxSigners _ _ _ _ _ _) as [found|e] eqn:Hv;
    [|discriminate].
  now apply Hsigners in Hv.
Qed.

(** X8.  Candidates that are listed again, at the end of the list, do not
    change the outcome of [verifyChallengeTxSigners]. *)
Theorem verifyChallengeTxSigners_repeated_candidates
    challengeTx serverAccountID networkPassphrase signers again homeDomains
    now :
  incl again signers ->
  verifyChallengeTxSigners challengeTx serverAccountID networkPassphrase
    (signers ++ again) homeDomains now
  = verifyChallengeTxSigners challengeTx serverAccountID networkPassphrase
      signers homeDomains now.
Proof.
  intros Hincl. unfold verifyChallengeTxSigners.
  destruct (readChallengeTx _ _ _ _ _) as [read|e]; [|reflexivity].
  cbn [bind].
  destruct (fromPublicKey serverAccountID) as [msg|serverKP]; [reflexivity|].
  rewrite collect_clientSigners_app.
  rewrite (collect_clientSigners_known (publicKey serverKP) again); [reflexivity|].
  intros x Hx.
  destruct (verifiable (publicKey serverKP) x) eqn:Hv; [left|now right].
  apply collect_clientSigners_In. right. split; [now apply Hincl|assumption].
Qed.

(** X9.  When [verifyChallengeTxThreshold] returns, it returns what
    [verifyChallengeTxSigners] returns for the keys of [signerSummary];
    every signer returned is a key of [signerSummary], so that no signer is
    counted with the weight 0 for being absent from it; and the weights
    that [signerSummary] gives to the signers returned add up to the
    threshold or more. *)
Theorem verifyChallengeTxThreshold_result
    challengeTx serverAccountID networkPassphrase threshold signerSummary
    homeDomains now result :
  verifyChallengeTxThreshold challengeTx serverAccountID networkPassphrase
    threshold signerSummary homeDomains now = OK result ->
  verifyChallengeTxSigners challengeTx serverAccountID networkPassphrase
    (map key signerSummary) homeDomains now = OK result
  /\ (forall s, In s result ->
        exists entry,
          List.find (fun e => String.eqb (key e) s) signerSummary = Some entry
          /\ In entry signerSummary
          /\ key entry = s
          /\ sigWeight signerSummary s = weight entry)
  /\ threshold <= total_weight signerSummary result.
Proof.
  unfold verifyChallengeTxThreshold.
  destruct (verifyChallengeTxSigners _ _ _ _ _ _) as [found|e] eqn:Hv;
    [|discriminate].
  cbn [bind]. rewrite add_weights_total, Z.add_0_l.
  destruct (total_weight signerSummary found <? threshold) eqn:Hlt;
    [discriminate|].
  intros [= <-]. split; [reflexivity|]. split; [|now apply Z.ltb_ge].
  intros s Hs.
  destruct (verifyChallengeTxSigners_inv _ _ _ _ _ _ _ Hv)
    as (read & serverKP & every & _ & Hkey & Hg & _ & _ & _ & E).
  rewrite E in Hs.
  destruct (gatherTxSigners_candidates _ _ _ Hg) as (Hnd & Hcands).
  destruct (splice_indexOf_NoDup serverAccountID every Hnd) as (_ & H2 & _).
  apply H2 in Hs. destruct Hs as [Hs Hneq].
  assert (Hcand : In s (map key signerSummary)).
  { apply Hcands in Hs. unfold allSigners in Hs.
    rewrite (fromPublicKey_publicKey _ _ Hkey) in Hs.
    destruct Hs as [->|Hs]; [now elim Hneq|].
    apply collect_clientSigners_In in Hs.
    destruct Hs as [[]|[Hs _]]. exact Hs. }
  apply in_map_iff in Hcand. destruct Hcand as (listed & Hk & Hlisted).
  unfold sigWeight.
  destruct (List.find (fun e => String.eqb (key e) s) signerSummary)
    as [entry|] eqn:Hf.
  - exists entry. apply find_some in Hf. destruct Hf as [Hentry Heq].
    apply String.eqb_eq in Heq. repeat split; assumption.
  - exfalso. apply (find_none _ _ Hf) in Hlisted. simpl in Hlisted.
    rewrite Hk, String.eqb_refl in Hlisted. discriminate.
Qed.

(** X10.  [verifyChallengeTxThreshold] is monotone in the threshold: what it
    returns for a threshold it returns for every lower threshold; and with
    weights that are not negative and a threshold that is not positive it
    returns whenever [verifyChallengeTxSigners] does, for the keys of
    [signerSummary]. *)
Theorem verifyChallengeTxThreshold_monotone
    challengeTx serverAccountID networkPassphrase signerSummary
    homeDomains now :
  (forall threshold lower result,
     verifyChallengeTxThreshold challengeTx serverAccountID networkPassphrase
       threshold signerSummary homeDomains now = OK result ->
     lower <= threshold ->
     verifyChallengeTxThreshold challengeTx serverAccountID networkPassphrase
       lower signerSummary homeDomains now = OK result)
  /\ (forall threshold,
        threshold <= 0 ->
        Forall (fun entry => 0 <= weight entry) signerSummary ->
        verifyChallengeTxThreshold challengeTx serverAccountID
          networkPassphrase threshold signerSummary homeDomains now
        = verifyChallengeTxSigners challengeTx serverAccountID
            networkPassphrase (map key signerSummary) homeDomains now).
Proof.
  split.
  - intros threshold lower result. unfold verifyChallengeTxThreshold.
    destruct (verifyChallengeTxSigners _ _ _ _ _ _) as [found|e];
      [|discriminate].
    cbn [bind]. rewrite add_weights_total, Z.add_0_l.
    destruct (total_weight signerSummary found <? threshold) eqn:Hlt;
      [discriminate|].
    intros [= <-] Hle. apply Z.ltb_ge in Hlt.
    assert (E : (total_weight signerSummary found <? lower) = false)
      by (apply Z.ltb_ge; lia).
    now rewrite E.
  - intros threshold Hle Hpos. unfold verifyChallengeTxThreshold.
    destruct (verifyChallengeTxSigners _ _ _ _ _ _) as [found|e];
      [|reflexivity].
    cbn [bind]. rewrite add_weights_total, Z.add_0_l.
    assert (Hsig : forall s, 0 <= sigWeight signerSummary s).
    { intros s. unfold sigWeight.
      destruct (List.find _ signerSummary) as [e|] eqn:Hf; [|lia].
      apply find_some in Hf. rewrite Forall_forall in Hpos.
      now apply Hpos. }
    assert (Htot : 0 <= total_weight signerSummary found).
    { unfold total_weight. induction found as [|a l IH]; simpl; [lia|].
      specialize (Hsig a). lia. }
    assert (E : (total_weight signerSummary found <? threshold) = false)
      by (apply Z.ltb_ge; lia).
    now rewrite E.
Qed.

Lemma verifyChallengeTxSigners_NoDup
    challengeTx serverAccountID networkPassphrase signers homeDomains now
    result :
  verifyChallengeTxSigners challengeTx serverAccountID networkPassphrase
    signers homeDomains now = OK result ->
  NoDup result.
Proof.
  intros H. destruct (verifyChallengeTxSigners_inv _ _ _ _ _ _ _ H)
    as (read & serverKP & found & _ & _ & Hg & _ & _ & _ & ->).
  destruct (gatherTxSigners_candidates _ _ _ Hg) as (Hnd & _).
  now apply splice_indexOf_NoDup.
Qed.


Lemma total_weight_split signerSummary found x :
  NoDup found -> In x found ->
  total_weight signerSummary found
  = sigWeight signerSummary x
    + total_weight signerSummary
        (filter (fun s => negb (String.eqb s x)) found).
Proof.
  unfold total_weight. induction 1 as [|a l Ha Hnd IH]; [intros []|].
  intros [->|Hx]; simpl.
  - rewrite String.eqb_refl. simpl. f_equal. f_equal. f_equal.
    clear IH Hnd. induction l as [|b l IHl]; [reflexivity|]. simpl.
    destruct (String.eqb b x) eqn:E.
    + apply String.eqb_eq in E. subst b. elim Ha. now left.
    + simpl. f_equal. apply IHl. intros H. apply Ha. now right.
  - destruct (String.eqb a x) eqn:E.
    + apply String.eqb_eq in E. subst a. contradiction.
    + simpl. rewrite (IH Hx). lia.
Qed.

Lemma sigWeight_later_duplicate before first middle second after w s :
  key second = key first ->
  sigWeight (before ++ first :: middle ++ second :: after) s
  = sigWeight
      (before ++ first :: middle
       ++ {| key := key second; weight := w |} :: after) s.
Proof.
  intros Hkey. unfold sigWeight.
  induction before as [|e before IH]; simpl.
  - destruct (String.eqb (key first) s) eqn:E; [reflexivity|].
    induction middle as [|m middle IHm]; simpl.
    + rewrite Hkey, E. reflexivity.
    + destruct (String.eqb (key m) s); [reflexivity|exact IHm].
  - destruct (String.eqb (key e) s); [reflexivity|exact IH].
Qed.

Lemma add_weights_ext summary summary' found w :
  (forall s, sigWeight summary s = sigWeight summary' s) ->
  add_weights summary found w = add_weights summary' found w.
Proof.
  intros H. revert w. induction found as [|a l IH]; intros w; simpl.
  - reflexivity.
  - now rewrite H, IH.
Qed.

(** C10.  When [signerSummary] has several entries with the same key and
    different weights, the weight that [verifyChallengeTxThreshold] adds for
    that signer is the weight of the first of them, not of a later one: if
    the signer is among those that [verifyChallengeTxSigners] returns, the
    sum that is compared with the threshold, and printed in the error, is
    the weight of the first entry plus the weights of the other signers;
    and the weight of the later entry does not change the outcome. *)
Theorem verifyChallengeTxThreshold_first_duplicate_wins
    challengeTx serverAccountID networkPassphrase threshold homeDomains now
    (before middle after : list AccountRecordSigners)
    (first second : AccountRecordSigners) :
  key second = key first ->
  weight second <> weight first ->
  (forall e, In e before -> key e <> key first) ->
  let signerSummary := before ++ first :: middle ++ second :: after in
  let verdict :=
    verifyChallengeTxThreshold challengeTx serverAccountID networkPassphrase
      threshold signerSummary homeDomains now in
  sigWeight signerSummary (key first) = weight first
  /\ sigWeight signerSummary (key first) <> weight second
  /\ (forall found,
        verifyChallengeTxSigners challengeTx serverAccountID networkPassphrase
          (map key signerSummary) homeDomains now = OK found ->
        In (key first) found ->
        let others :=
          filter (fun s => negb (String.eqb s (key first))) found in
        let sum := weight first + total_weight signerSummary others in
        verdict
        = if sum <? threshold then
            Err (InvalidSep10ChallengeError
                   ("signers with weight " +++ string_of_Z sum +++
                    " do not meet threshold " +++ string_of_Z threshold
                    +++ dquote))
          else OK found)
  /\ (forall w,
        verifyChallengeTxThreshold challengeTx serverAccountID
          networkPassphrase threshold
          (before ++ first :: middle
           ++ {| key := key second; weight := w |} :: after)
          homeDomains now
        = verdict).
Proof.
  intros Hkey Hweight Hbefore signerSummary verdict.
  assert (Hfirst : sigWeight signerSummary (key first) = weight first).
  { now apply (sigWeight_first signerSummary before first
                 (middle ++ second :: after)). }
  split; [exact Hfirst|]. split; [rewrite Hfirst; congruence|]. split.
  - intros found Hfound Hin others sum.
    unfold verdict, verifyChallengeTxThreshold. rewrite Hfound. cbn [bind].
    rewrite add_weights_total, Z.add_0_l.
    rewrite (total_weight_split signerSummary found (key first)
               (verifyChallengeTxSigners_NoDup _ _ _ _ _ _ _ Hfound) Hin).
    rewrite Hfirst. reflexivity.
  - intros w. unfold verdict, verifyChallengeTxThreshold.
    assert (Hkeys :
      map key (before ++ first :: middle
               ++ {| key := key second; weight := w |} :: after)
      = map key signerSummary).
    { unfold signerSummary. rewrite !map_app. simpl. rewrite !map_app.
      reflexivity. }
    rewrite Hkeys.
    destruct (verifyChallengeTxSigners challengeTx serverAccountID
                networkPassphrase (map key signerSummary) homeDomains now)
      as [found|e]; [|reflexivity].
    cbn [bind].
    rewrite (add_weights_ext _ signerSummary); [reflexivity|].
    intros s. symmetry. now apply sigWeight_later_duplicate.
Qed.

End VerifiersMore.


(** Witness of C10: the client is listed with the weight 1 and then with the
    weight 5, and counts for 1, which does not meet the threshold 3. *)
Lemma verifyChallengeTxThreshold_first_duplicate_wins_witness :
  verifyChallengeTxThreshold (sdk := Toy.sdk) challenge_client
    Samples.serverAddress Samples.TESTNET 3 summary_duplicate
    (hd_string "SDF") 1100
  = Err (InvalidSep10ChallengeError
           ("signers with weight 1 do not meet threshold 3" +++ dquote))
  /\ sigWeight summary_duplicate Samples.clientAddress = 1
  /\ sigWeight summary_duplicate Samples.clientAddress <> 5.
Proof.
  destruct (verifyChallengeTxThreshold_first_duplicate_wins (sdk := Toy.sdk)
              challenge_client Samples.serverAddress Samples.TESTNET 3
              (hd_string "SDF") 1100 [] [] []
              {| key := Samples.clientAddress; weight := 1 |}
              {| key := Samples.clientAddress; weight := 5 |})
    as (Hfirst & Hsecond & Hsum & _).
  - reflexivity.
  - discriminate.
  - intros e [].
  - split; [|split; [exact Hfirst|exact Hsecond]].
    etransitivity.
    + apply (Hsum [Samples.clientAddress]); [vm_compute; reflexivity|].
      now left.
    + vm_compute. reflexivity.
Defined.

(* ================================================================== *)
(** * Further properties of [readChallengeTx] and of the whole exchange *)

(** A transaction with another list of signatures. *)
Definition set_signatures
    (sigs : list DecoratedSignature) (t : Transaction) : Transaction :=
  {| tx_source := tx_source t;
     tx_sequence := tx_sequence t;
     tx_fee := tx_fee t;
     tx_timeBounds := tx_timeBounds t;
     tx_operations := tx_operations t;
     tx_signatures := sigs;
     tx_networkPassphrase := tx_networkPassphrase t |}.

(** An operation that may follow the first one: a [manageData] operation
    whose source is the server. *)
Definition server_manageData (serverAccountID : string) (op : Operation)
  : Prop :=
  op_type op = "manageData" /\ op_source op = Some serverAccountID.

Section ReadMore.

Context {sdk : BaseSdk}.

Lemma check_subsequentOperations_Forall serverAccountID ops :
  check_subsequentOperations serverAccountID ops = OK tt
  <-> Forall (server_manageData serverAccountID) ops.
Proof.
  unfold server_manageData. induction ops as [|op ops IH]; simpl.
  - split; [constructor|reflexivity].
  - destruct (String.eqb (op_type op) "manageData") eqn:Et; simpl.
    + apply String.eqb_eq in Et.
      destruct (op_source op) as [s|] eqn:Es.
      * destruct (String.eqb s serverAccountID) eqn:E; simpl.
        -- apply String.eqb_eq in E. subst s. rewrite IH. split.
           ++ intros H. constructor; [now split|assumption].
           ++ intros H. now inversion H.
        -- split; [discriminate|]. intros H. inversion H as [|? ? [_ Hs] _].
           apply String.eqb_neq in E. congruence.
      * simpl. split; [discriminate|].
        intros H. inversion H as [|? ? [_ Hs] _]. congruence.
    + split; [discriminate|]. intros H. inversion H as [|? ? [Ht _] _].
      apply String.eqb_neq in Et. congruence.
Qed.

(** X11.  [readChallengeTx] returns exactly the challenges that pass all
    its checks: the server account is not multiplexed; the challenge parses
    to a transaction with sequence number 0 whose source is the server
    account; the first operation is a [manageData] operation with a
    non-empty source, which is the client account ID returned; the time
    bounds are present, their [maxTime] is not [TimeoutInfinite] and they
    contain [now]; the matched home domain returned is not empty and is
    what [homeDomains] selects for the key name of the first operation; and
    every further operation is a [manageData] operation whose source is the
    server account. *)
Theorem readChallengeTx_characterized
    challengeTx serverAccountID networkPassphrase homeDomains now read :
  readChallengeTx challengeTx serverAccountID networkPassphrase
    homeDomains now = OK read
  <-> exists operation subsequentOperations,
        StructureChecked challengeTx serverAccountID networkPassphrase
          (tx read) operation subsequentOperations (clientAccountID read)
        /\ TimeboundsChecked (tx read) now
        /\ HomeDomainMatched homeDomains (op_name operation)
             (matchedHomeDomain read)
        /\ Forall (server_manageData serverAccountID) subsequentOperations.
Proof.
  split.
  - intros H. destruct (readChallengeTx_inv _ _ _ _ _ _ H)
      as (op & rest & H1 & H2 & H3 & H4).
    exists op, rest.
    split; [exact H1|]. split; [exact H2|]. split; [exact H3|].
    now apply check_subsequentOperations_Forall.
  - intros (op & rest & H1 & H2 & H3 & H4).
    apply check_subsequentOperations_Forall in H4.
    rewrite (readChallengeTx_intro _ _ _ _ _ _ _ _ _ _ H1 H2 H3 H4).
    now destruct read.
Qed.

(** X12.  [readChallengeTx] does not look at the signatures of the
    challenge, the server's included: two challenges that parse to the same
    transaction up to the signatures have the same outcome, with the same
    client account ID and matched home domain, or the same error. *)
Theorem readChallengeTx_ignores_signatures
    challengeTx challengeTx' serverAccountID networkPassphrase homeDomains now
    transaction sigs :
  fromXDR challengeTx networkPassphrase = OK (IsTransaction transaction) ->
  fromXDR challengeTx' networkPassphrase
  = OK (IsTransaction (set_signatures sigs transaction)) ->
  match readChallengeTx challengeTx serverAccountID networkPassphrase
          homeDomains now with
  | OK read =>
      readChallengeTx challengeTx' serverAccountID networkPassphrase
        homeDomains now
      = OK {| tx := set_signatures sigs transaction;
              clientAccountID := clientAccountID read;
              matchedHomeDomain := matchedHomeDomain read |}
  | Err e =>
      readChallengeTx challengeTx' serverAccountID networkPassphrase
        homeDomains now = Err e
  end.
Proof.
  intros Hparse Hparse'. unfold readChallengeTx.
  destruct (startsWith serverAccountID "M"); [reflexivity|].
  rewrite Hparse, Hparse'. cbn [bind].
  unfold validateTimebounds.
  cbn [set_signatures tx_sequence tx_source tx_operations tx_timeBounds].
  destruct (tx_sequence transaction =? 0); cbn [negb]; [|reflexivity].
  destruct (String.eqb (tx_source transaction) serverAccountID); cbn [negb];
    [|reflexivity].
  destruct (tx_operations transaction) as [|operation rest]; [reflexivity|].
  destruct (truthy_string (op_source operation)) as [client|];
    [|reflexivity].
  destruct (String.eqb (op_type operation) "manageData"); cbn [negb];
    [|reflexivity].
  destruct (match tx_timeBounds transaction with
            | Some tb => maxTime tb =? TimeoutInfinite
            | None => false
            end); [reflexivity|].
  destruct (match tx_timeBounds transaction with
            | Some tb => (minTime tb <=? now) && (now <=? maxTime tb)
            | None => false
            end); cbn [negb]; [|reflexivity].
  destruct (falsy_homeDomains homeDomains); [reflexivity|].
  destruct (match homeDomains with
            | hd_string homeDomain =>
                if String.eqb (homeDomain +++ " auth") (op_name operation)
                then OK (Some homeDomain) else OK None
            | hd_array domains =>
                OK (find_homeDomain (op_name operation) domains)
            | hd_other js_typeof _ =>
                Err (InvalidSep10ChallengeError
                  ("Invalid homeDomains: homeDomains type is " +++ js_typeof
                   +++ " but should be a string or an array"))
            end) as [matched|e]; cbn [bind]; [|reflexivity].
  destruct (truthy_string matched) as [domain|]; [|reflexivity].
  destruct (check_subsequentOperations serverAccountID rest) as [[]|e];
    reflexivity.
Qed.



End ReadMore.

(* ================================================================== *)
(** * The further properties on the samples *)

(** The challenge of the samples with the signatures of [kps], as a
    transaction. *)
Definition sample_transaction (kps : list Toy.Keypair) : AnyTransaction :=
  IsTransaction (Samples.sign_all kps unsignedChallenge).



(** Witness of X1: the client has signed twice and is listed three times. *)
Lemma gatherTxSigners_no_repetition_witness :
  gatherTxSigners (sdk := Toy.sdk)
    (sample_transaction [Samples.clientKP; Samples.clientKP; Samples.signerKP])
    [Samples.clientAddress; Samples.clientAddress; Samples.signerAddress;
     Samples.clientAddress]
  = OK [Samples.clientAddress; Samples.signerAddress]
  /\ NoDup [Samples.clientAddress; Samples.signerAddress]
  /\ (List.length [Samples.clientAddress; Samples.signerAddress]
      <= List.length (signatures (sample_transaction
           [Samples.clientKP; Samples.clientKP; Samples.signerKP])))%nat.
Proof.
  split; [vm_compute; reflexivity|].
  apply (gatherTxSigners_no_repetition (sdk := Toy.sdk) _
           [Samples.clientAddress; Samples.clientAddress;
            Samples.signerAddress; Samples.clientAddress]).
  vm_compute. reflexivity.
Defined.

(** Witness of X2. *)
Lemma gatherTxSigners_sound_witness :
  In Samples.signerAddress
     [Samples.strangerAddress; Samples.signerAddress; Samples.clientAddress]
  /\ exists keypair decSig,
       fromPublicKey (BaseSdk := Toy.sdk) Samples.signerAddress = inr keypair
       /\ In decSig (signatures (sample_transaction
                       [Samples.clientKP; Samples.signerKP]))
       /\ Buffer_equals (hint decSig)
            (signatureHint (BaseSdk := Toy.sdk) keypair) = true
       /\ verify (BaseSdk := Toy.sdk) keypair
            (hash (BaseSdk := Toy.sdk)
               (sample_transaction [Samples.clientKP; Samples.signerKP]))
            (signature decSig) = true.
Proof.
  apply (gatherTxSigners_sound (sdk := Toy.sdk)
           (sample_transaction [Samples.clientKP; Samples.signerKP])
           [Samples.strangerAddress; Samples.signerAddress;
            Samples.clientAddress]
           [Samples.signerAddress; Samples.clientAddress]).
  - vm_compute. reflexivity.
  - now left.
Defined.

(** Witness of X3: the signer is found behind a stranger, who has not
    signed. *)
Lemma gatherTxSigners_complete_witness :
  In Samples.signerAddress [Samples.signerAddress; Samples.clientAddress].
Proof.
  apply (gatherTxSigners_complete (sdk := Toy.sdk)
           (sample_transaction [Samples.clientKP; Samples.signerKP])
           [Samples.strangerAddress] Samples.signerAddress
           [Samples.clientAddress]
           [Samples.signerAddress; Samples.clientAddress]
           Samples.signerKP
           (signDecorated (BaseSdk := Toy.sdk) Samples.signerKP
              (hash (BaseSdk := Toy.sdk) (IsTransaction unsignedChallenge)))).
  - vm_compute. reflexivity.
  - reflexivity.
  - vm_compute. tauto.
  - vm_compute. reflexivity.
  - intros s' kp' [<-|[]] Hkp. injection Hkp as <-. vm_compute. reflexivity.
Defined.

(** Witness of X4: the candidates are given in the reverse order of the
    signatures. *)
Lemma gatherTxSigners_order_witness :
  [Samples.signerAddress; Samples.clientAddress]
  = filter (fun s => existsb (String.eqb s)
                       [Samples.signerAddress; Samples.clientAddress])
      [Samples.signerAddress; Samples.strangerAddress; Samples.clientAddress].
Proof.
  apply (gatherTxSigners_order (sdk := Toy.sdk)
           (sample_transaction [Samples.clientKP; Samples.signerKP])).
  - repeat constructor; simpl; intuition discriminate.
  - vm_compute. reflexivity.
Defined.

(** Witness of X5. *)
Lemma verifyTxSignedBy_spec_witness :
  verifyTxSignedBy (sdk := Toy.sdk)
    (sample_transaction [Samples.clientKP]) Samples.clientAddress = OK true
  /\ verifyTxSignedBy (sdk := Toy.sdk)
       (sample_transaction []) Samples.preauthTxHash = OK false.
Proof.
  split.
  - apply (verifyTxSignedBy_spec (sdk := Toy.sdk)).
    exists Samples.clientKP,
      (signDecorated (BaseSdk := Toy.sdk) Samples.clientKP
         (hash (BaseSdk := Toy.sdk) (IsTransaction unsignedChallenge))).
    repeat split; vm_compute; tauto.
  - apply (verifyTxSignedBy_spec (sdk := Toy.sdk)). reflexivity.
Defined.

(** Witness of X6: the server is among the candidates and is not
    returned. *)
Lemma verifyChallengeTxSigners_result_witness :
  verifyChallengeTxSigners (sdk := Toy.sdk) challenge_both
    Samples.serverAddress Samples.TESTNET
    [Samples.serverAddress; Samples.clientAddress; Samples.signerAddress]
    (hd_string "SDF") 1100
  = OK [Samples.clientAddress; Samples.signerAddress]
  /\ ~ In Samples.serverAddress [Samples.clientAddress; Samples.signerAddress].
Proof.
  assert (H : verifyChallengeTxSigners (sdk := Toy.sdk) challenge_both
                Samples.serverAddress Samples.TESTNET
                [Samples.serverAddress; Samples.clientAddress;
                 Samples.signerAddress]
                (hd_string "SDF") 1100
              = OK [Samples.clientAddress; Samples.signerAddress]).
  { vm_compute. reflexivity. }
  split; [exact H|].
  apply (verifyChallengeTxSigners_result (sdk := Toy.sdk) _ _ _ _ _ _ _ H).
Defined.

(** Witness of X7. *)
Lemma built_challenge_not_verified_witness :
  verifyChallengeTxSigners (sdk := Toy.sdk) challenge_server
    Samples.serverAddress Samples.TESTNET [Samples.clientAddress]
    (hd_string "SDF") 1100
  <> OK [Samples.clientAddress].
Proof.
  apply (built_challenge_not_verified (sdk := Toy.sdk) Samples.serverKP
           Samples.clientAddress "SDF" 300 Samples.TESTNET 1000 "nonce"
           challenge_server).
  vm_compute. reflexivity.
Defined.

(** Witness of X8. *)
Lemma verifyChallengeTxSigners_repeated_candidates_witness :
  verifyChallengeTxSigners (sdk := Toy.sdk) challenge_both
    Samples.serverAddress Samples.TESTNET
    ([Samples.clientAddress; Samples.signerAddress]
     ++ [Samples.signerAddress; Samples.clientAddress])
    (hd_string "SDF") 1100
  = verifyChallengeTxSigners (sdk := Toy.sdk) challenge_both
      Samples.serverAddress Samples.TESTNET
      [Samples.clientAddress; Samples.signerAddress] (hd_string "SDF") 1100.
Proof.
  apply (verifyChallengeTxSigners_repeated_candidates (sdk := Toy.sdk)).
  intros x [<-|[<-|[]]]; simpl; tauto.
Defined.

(** Witness of X9. *)
Lemma verifyChallengeTxThreshold_result_witness :
  verifyChallengeTxSigners (sdk := Toy.sdk) challenge_both
    Samples.serverAddress Samples.TESTNET (map key summary_two)
    (hd_string "SDF") 1100
  = OK [Samples.clientAddress; Samples.signerAddress]
  /\ 3 <= total_weight summary_two
            [Samples.clientAddress; Samples.signerAddress].
Proof.
  destruct (verifyChallengeTxThreshold_result (sdk := Toy.sdk) challenge_both
              Samples.serverAddress Samples.TESTNET 3 summary_two
              (hd_string "SDF") 1100
              [Samples.clientAddress; Samples.signerAddress])
    as (H1 & _ & H3).
  - vm_compute. reflexivity.
  - split; assumption.
Defined.

(** Witness of X10. *)
Lemma verifyChallengeTxThreshold_monotone_witness :
  verifyChallengeTxThreshold (sdk := Toy.sdk) challenge_both
    Samples.serverAddress Samples.TESTNET 2 summary_two (hd_string "SDF") 1100
  = OK [Samples.clientAddress; Samples.signerAddress]
  /\ verifyChallengeTxThreshold (sdk := Toy.sdk) challenge_both
       Samples.serverAddress Samples.TESTNET 0 summary_two (hd_string "SDF")
       1100
     = verifyChallengeTxSigners (sdk := Toy.sdk) challenge_both
         Samples.serverAddress Samples.TESTNET (map key summary_two)
         (hd_string "SDF") 1100.
Proof.
  destruct (verifyChallengeTxThreshold_monotone (sdk := Toy.sdk)
              challenge_both Samples.serverAddress Samples.TESTNET
              summary_two (hd_string "SDF") 1100) as (Hlower & Hzero).
  split.
  - apply (Hlower 3 2); [vm_compute; reflexivity|lia].
  - apply Hzero; [lia|]. repeat constructor; simpl; lia.
Defined.

(** Witness of X11: the server's challenge passes every check at 1100. *)
Lemma readChallengeTx_characterized_witness :
  exists operation subsequentOperations,
    StructureChecked (sdk := Toy.sdk) challenge_server Samples.serverAddress
      Samples.TESTNET (tx (sample_read challenge_server)) operation
      subsequentOperations (clientAccountID (sample_read challenge_server))
    /\ TimeboundsChecked (sdk := Toy.sdk)
         (tx (sample_read challenge_server)) 1100
    /\ HomeDomainMatched (hd_string "SDF") (op_name operation)
         (matchedHomeDomain (sample_read challenge_server))
    /\ Forall (server_manageData Samples.serverAddress) subsequentOperations.
Proof.
  apply (readChallengeTx_characterized (sdk := Toy.sdk)).
  vm_compute. reflexivity.
Defined.

(** Witness of X12: the challenge without any signature is read like the
    one that the server and the client have signed. *)
Lemma readChallengeTx_ignores_signatures_witness :
  readChallengeTx (sdk := Toy.sdk) (Samples.envelope unsignedChallenge)
    Samples.serverAddress Samples.TESTNET (hd_string "SDF") 1100
  = OK {| tx := set_signatures [] (tx (sample_read challenge_client));
          clientAccountID := Samples.clientAddress;
          matchedHomeDomain := "SDF" |}.
Proof.
  assert (H := readChallengeTx_ignores_signatures (sdk := Toy.sdk)
                 challenge_client (Samples.envelope unsignedChallenge)
                 Samples.serverAddress Samples.TESTNET (hd_string "SDF") 1100
                 (tx (sample_read challenge_client)) []).
  assert (Hread : readChallengeTx (sdk := Toy.sdk) challenge_client
                    Samples.serverAddress Samples.TESTNET (hd_string "SDF")
                    1100 = OK (sample_read challenge_client)).
  { vm_compute. reflexivity. }
  rewrite Hread in H. apply H; vm_compute; reflexivity.
Defined.

